(** * Recipe costing: a shallow embedding of [recipe_costing.py]

    The program is an interactive command-line tool.  It is modelled here as
    state-passing code over an explicit [World] (the lines still to be read
    from standard input, the text written so far, and the files of the working
    directory).  Python exceptions are results of the [Raise] form.

    Modelling choices, all of them visible in the definitions below:
    - a [str] is a [String.string]; its characters are read as the first 256
      Unicode code points (Latin-1), on which [str.lower] and [str.strip] are
      defined exactly as Python defines them.  The three pictographs that the
      program prints lie beyond Latin-1: the constant lines that hold them
      hold their UTF-8 bytes;
    - a Python [float] is a [pyfloat]: a rational value or one of the three
      IEEE special values.  Comparison with zero and truncation by [int] are
      exact on the value of a double, so they are modelled exactly.  The
      arithmetic is carried out on the exact rational values: rounding to 53
      bits and overflow to infinity are not modelled;
    - the conversions between text and numbers that Python's runtime provides
      ([float] on a string, [repr] and the [.2f] format of a float) are
      parameters of the program; the module [PyText] gives an instance of
      them on decimal numerals;
    - the program takes the serialisation of a store as two parameters too;
      the module [Json] models [json.dumps] and [json.loads] on the documents
      that a store holds;
    - a [dict] is an association list in insertion order with distinct keys,
      which is what the iteration order of a Python dict exposes.  The values
      of a store are floats, as are those of every store that the program
      writes; a store file that holds a value of another kind is not read as
      a store. *)

From Stdlib Require Import List String Ascii Bool ZArith QArith Lia DecimalString.
Import ListNotations.

Local Open Scope string_scope.
Local Open Scope list_scope.
Local Open Scope Z_scope.

(** ** Strings *)

Module Str.

(** [str.lower] on one Latin-1 character: A-Z and the accented capitals
    U+00C0..U+00DE (except the multiplication sign U+00D7) move by 32. *)
Definition lower_char (c : ascii) : ascii :=
  let n := N_of_ascii c in
  if ((65 <=? n) && (n <=? 90))%N
     || ((192 <=? n) && (n <=? 222) && negb (n =? 215))%N
  then ascii_of_N (n + 32)
  else c.

Fixpoint lower (s : string) : string :=
  match s with
  | EmptyString => EmptyString
  | String c s' => String (lower_char c) (lower s')
  end.

(** [str.isspace] on one Latin-1 character. *)
Definition is_space (c : ascii) : bool :=
  let n := N_of_ascii c in
  (((9 <=? n) && (n <=? 13)) || ((28 <=? n) && (n <=? 32))
   || (n =? 133) || (n =? 160))%N.

Fixpoint lstrip (s : string) : string :=
  match s with
  | EmptyString => EmptyString
  | String c s' => if is_space c then lstrip s' else s
  end.

(** [rstrip] drops the trailing run of white space: a character is kept
    when it is not white space or something is kept after it. *)
Fixpoint rstrip (s : string) : string :=
  match s with
  | EmptyString => EmptyString
  | String c s' =>
      match rstrip s' with
      | EmptyString => if is_space c then EmptyString else String c EmptyString
      | r => String c r
      end
  end.

Definition strip (s : string) : string := rstrip (lstrip s).

(** [s.startswith(p)] *)
Definition startswith (s p : string) : bool := String.prefix p s.

(** [needle in hay]: [needle] occurs at some position of [hay]. *)
Fixpoint contains (needle hay : string) : bool :=
  match hay with
  | EmptyString => String.prefix needle EmptyString
  | String _ hay' => String.prefix needle hay || contains needle hay'
  end.

(** Truth value of a string: non-empty. *)
Definition truthy (s : string) : bool :=
  match s with EmptyString => false | _ => true end.

End Str.

(** ** Floats *)

Inductive pyfloat : Type :=
| Fin (q : Q)
| PInf
| NInf
| NaN.

Module Float.

(** [v > 0] *)
Definition gt0 (v : pyfloat) : bool :=
  match v with
  | Fin q => 0 <? Qnum q
  | PInf => true
  | NInf | NaN => false
  end.

Definition of_int (n : Z) : pyfloat := Fin (inject_Z n).

Definition sign_neg (q : Q) : bool := Qnum q <? 0.

Definition add (a b : pyfloat) : pyfloat :=
  match a, b with
  | NaN, _ | _, NaN => NaN
  | PInf, NInf | NInf, PInf => NaN
  | PInf, _ | _, PInf => PInf
  | NInf, _ | _, NInf => NInf
  | Fin x, Fin y => Fin (x + y)
  end.

Definition inf_of_sign (neg : bool) : pyfloat := if neg then NInf else PInf.

Definition mul (a b : pyfloat) : pyfloat :=
  match a, b with
  | NaN, _ | _, NaN => NaN
  | Fin x, Fin y => Fin (x * y)
  | PInf, PInf | NInf, NInf => PInf
  | PInf, NInf | NInf, PInf => NInf
  | PInf, Fin y | Fin y, PInf =>
      if Qnum y =? 0 then NaN else inf_of_sign (sign_neg y)
  | NInf, Fin y | Fin y, NInf =>
      if Qnum y =? 0 then NaN else inf_of_sign (negb (sign_neg y))
  end.

(** [a / n] for a non-zero integer [n] (the caller has raised
    [ZeroDivisionError] otherwise). *)
Definition div_int (a : pyfloat) (n : Z) : pyfloat :=
  match a with
  | Fin x => Fin (x / inject_Z n)
  | PInf => inf_of_sign (n <? 0)
  | NInf => inf_of_sign (negb (n <? 0))
  | NaN => NaN
  end.

(** Round half to even to a multiple of 1/100. *)
Definition round_half_even (q : Q) : Z :=
  let n := Qnum q * 100 in
  let d := Zpos (Qden q) in
  let f := n / d in
  let r2 := 2 * (n mod d) in
  if r2 <? d then f
  else if d <? r2 then f + 1
  else if Z.even f then f else f + 1.

(** [round(v, 2)]: with [ndigits] given the result is a float, and the
    special values are returned as they are. *)
Definition round2 (v : pyfloat) : pyfloat :=
  match v with
  | Fin q => Fin (round_half_even q # 100)
  | _ => v
  end.

(** [a == b]: a NaN is equal to nothing, itself included. *)
Definition eqb (a b : pyfloat) : bool :=
  match a, b with
  | Fin x, Fin y => Qeq_bool x y
  | PInf, PInf | NInf, NInf => true
  | _, _ => false
  end.

Definition is_nan (v : pyfloat) : bool :=
  match v with NaN => true | _ => false end.

End Float.

(** ** Exceptions and results *)

Inductive exn : Type :=
| EOFError            (* [input] at the end of standard input *)
| OverflowError       (* [int] of an infinity *)
| ValueError          (* [int] of a NaN *)
| ZeroDivisionError
| JSONDecodeError
| FileNotFoundError
| Diverged.           (* the model's loop bound was reached; see [create_recipe_total] *)

Inductive result (A : Type) : Type :=
| Ok (a : A)
| Raise (e : exn).
Arguments Ok {A} a.
Arguments Raise {A} e.

(** [int(v)]: truncation towards zero. *)
Definition int_of_float (v : pyfloat) : result Z :=
  match v with
  | Fin q => Ok (Z.quot (Qnum q) (Zpos (Qden q)))
  | PInf | NInf => Raise OverflowError
  | NaN => Raise ValueError
  end.

(** ** Dictionaries in insertion order *)

Definition dict : Type := list (string * pyfloat).

Module Dict.

Fixpoint get (k : string) (d : dict) : option pyfloat :=
  match d with
  | [] => None
  | (k', v) :: d' => if String.eqb k k' then Some v else get k d'
  end.

(** [d[k] = v]: an existing key keeps its position, a new key goes last. *)
Fixpoint set (k : string) (v : pyfloat) (d : dict) : dict :=
  match d with
  | [] => [(k, v)]
  | (k', v') :: d' =>
      if String.eqb k k' then (k', v) :: d' else (k', v') :: set k v d'
  end.

Definition keys (d : dict) : list string := map fst d.

Definition is_empty (d : dict) : bool :=
  match d with [] => true | _ => false end.

(** Every entry of [d1] has an equal value under the same key in [d2]. *)
Definition included (d1 d2 : dict) : bool :=
  forallb (fun kv => match get (fst kv) d2 with
                     | Some v => Float.eqb (snd kv) v
                     | None => false
                     end) d1.

(** [d1 == d2] on two distinct dict objects: the same number of entries,
    and equal values under equal keys. *)
Definition eqb (d1 d2 : dict) : bool :=
  Nat.eqb (List.length d1) (List.length d2) && included d1 d2.

End Dict.

(** ** The world: console and files *)

Record World : Type := mkWorld {
  stdin : list string;               (* lines not read yet *)
  stdout : list string;              (* prompts and printed lines, oldest first *)
  files : list (string * string)     (* file name, content *)
}.

Module FS.

Fixpoint read (name : string) (fs : list (string * string)) : option string :=
  match fs with
  | [] => None
  | (n, c) :: fs' => if String.eqb name n then Some c else read name fs'
  end.

(** [os.path.exists] *)
Definition exists_ (name : string) (fs : list (string * string)) : bool :=
  match read name fs with Some _ => true | None => false end.

(** [open(name, "w")] followed by a write: the file is created or replaced. *)
Fixpoint write (name content : string) (fs : list (string * string))
  : list (string * string) :=
  match fs with
  | [] => [(name, content)]
  | (n, c) :: fs' =>
      if String.eqb name n then (n, content) :: fs'
      else (n, c) :: write name content fs'
  end.

End FS.

(** A computation reads and changes the world and returns or raises. *)
Definition M (A : Type) : Type := World -> result A * World.

Definition ret {A} (a : A) : M A := fun w => (Ok a, w).

Definition raise {A} (e : exn) : M A := fun w => (Raise e, w).

Definition bind {A B} (m : M A) (k : A -> M B) : M B :=
  fun w =>
    match m w with
    | (Ok a, w') => k a w'
    | (Raise e, w') => (Raise e, w')
    end.

Notation "x <- m ;; k" := (bind m (fun x => k))
  (at level 61, m at next level, right associativity).
Notation "m ;;; k" := (bind m (fun _ => k))
  (at level 61, right associativity).

Definition lift {A} (r : result A) : M A := fun w => (r, w).

(** [print(line)] *)
Definition print (line : string) : M unit :=
  fun w => (Ok tt, mkWorld (stdin w) (stdout w ++ [line]) (files w)).

(** [input(prompt)]: the prompt is written, then one line is read. *)
Definition input (prompt : string) : M string :=
  fun w =>
    let out := stdout w ++ [prompt] in
    match stdin w with
    | [] => (Raise EOFError, mkWorld [] out (files w))
    | line :: rest => (Ok line, mkWorld rest out (files w))
    end.

(** The line break that starts two of the printed lines. *)
Definition LF : string := String (ascii_of_N 10) EmptyString.

Definition INGREDIENTS_FILE : string := "ingredients.json".
Definition RECIPES_FILE : string := "recipes.json".


(** ** The value objects *)

Module Ingredient.

Record t : Type := make {
  name : string;
  weight_g : pyfloat;
  cost_per_g : pyfloat
}.

Definition total_cost (self : t) : pyfloat :=
  Float.mul (weight_g self) (cost_per_g self).

End Ingredient.

(** [sum(xs)]: the accumulator starts at the integer 0 and the items are
    added from left to right. *)
Definition py_sum (xs : list pyfloat) : pyfloat :=
  fold_left Float.add xs (Float.of_int 0).

Module Recipe.

Record t : Type := make {
  name : string;
  portions : Z;
  ingredients : list Ingredient.t
}.

(** [Recipe(name, portions)] *)
Definition init (name : string) (portions : Z) : t := make name portions [].

Definition add_ingredient (self : t) (ingredient : Ingredient.t) : t :=
  make (name self) (portions self) (ingredients self ++ [ingredient]).

Definition total_cost (self : t) : pyfloat :=
  py_sum (map Ingredient.total_cost (ingredients self)).

(** A float divided by the integer 0 raises. *)
Definition cost_per_portion (self : t) : result pyfloat :=
  if portions self =? 0 then Raise ZeroDivisionError
  else Ok (Float.div_int (total_cost self) (portions self)).

End Recipe.

Record RecipeManager : Type := mkManager {
  ingredients_db : dict;
  recipes_db : dict
}.

(** ** The program *)

Section Program.

(** [float(s)] on a string; [None] stands for [ValueError]. *)
Variable float_of_str : string -> option pyfloat.
(** The format [{:.2f}] of a float. *)
Variable fmt2f : pyfloat -> string.
(** [json.dumps(d, indent=2)], and [json.loads]; [None] stands for a
    document that is not valid JSON. *)
Variable json_dumps : dict -> string.
Variable json_loads : string -> option dict.

(** *** Input validation helpers

    Both loops read one line per iteration, so they are written by recursion
    on the lines that standard input still holds; at the end of input
    [input] raises [EOFError]. *)

Fixpoint get_positive_float_on (prompt : string) (lines out : list string)
  : result pyfloat * (list string * list string) :=
  match lines with
  | [] => (Raise EOFError, ([], out ++ [prompt]))
  | line :: rest =>
      match float_of_str line with
      | Some value =>
          if Float.gt0 value then (Ok value, (rest, out ++ [prompt]))
          else get_positive_float_on prompt rest
                 (out ++ [prompt; "Please enter a positive number."])
      | None =>
          get_positive_float_on prompt rest
            (out ++ [prompt; "Invalid input. Please enter a number."])
      end
  end.

Definition get_positive_float (prompt : string) : M pyfloat :=
  fun w =>
    let '(r, (lines, out)) := get_positive_float_on prompt (stdin w) (stdout w) in
    (r, mkWorld lines out (files w)).

Fixpoint get_non_empty_string_on (prompt : string) (lines out : list string)
  : result string * (list string * list string) :=
  match lines with
  | [] => (Raise EOFError, ([], out ++ [prompt]))
  | line :: rest =>
      let value := Str.strip line in
      if Str.truthy value then (Ok value, (rest, out ++ [prompt]))
      else get_non_empty_string_on prompt rest
             (out ++ [prompt; "Input cannot be empty."])
  end.

Definition get_non_empty_string (prompt : string) : M string :=
  fun w =>
    let '(r, (lines, out)) := get_non_empty_string_on prompt (stdin w) (stdout w) in
    (r, mkWorld lines out (files w)).

(** *** Name matching *)

(** The test of the first loop of [suggest_name]. *)
Definition exact_match (input_name_lower name : string) : bool :=
  String.eqb (Str.lower name) input_name_lower.

(** The condition of the list comprehension of [suggest_name]. *)
Definition is_suggestion (input_name_lower name : string) : bool :=
  Str.contains input_name_lower (Str.lower name)
  || Str.startswith (Str.lower name) input_name_lower.

Definition suggestions_of (input_name : string) (valid_names : list string)
  : list string :=
  filter (is_suggestion (Str.lower input_name)) valid_names.

Definition confirm_prompt (suggestion input_name : string) : string :=
  ("Did you mean '" ++ suggestion ++ "' instead of '" ++ input_name
   ++ "'? (y/n): ")%string.

Definition suggest_name (input_name : string) (valid_names : list string)
  : M string :=
  let input_name_lower := Str.lower input_name in
  match find (exact_match input_name_lower) valid_names with
  | Some name => ret name
  | None =>
      match suggestions_of input_name valid_names with
      | suggestion :: _ =>
          answer <- input (confirm_prompt suggestion input_name) ;;
          let confirm := Str.lower (Str.strip answer) in
          ret (if String.eqb confirm "y" then suggestion else input_name)
      | [] => ret input_name
      end
  end.

(** *** The manager *)

Definition load_data (filename : string) : M dict :=
  fun w =>
    if FS.exists_ filename (files w) then
      match FS.read filename (files w) with
      | Some content =>
          match json_loads content with
          | Some d => (Ok d, w)
          | None => (Raise JSONDecodeError, w)
          end
      | None => (Raise FileNotFoundError, w)
      end
    else (Ok [], w).

Definition save_data (filename : string) (data : dict) : M unit :=
  fun w =>
    (Ok tt,
     mkWorld (stdin w) (stdout w)
       (FS.write filename (json_dumps data) (files w))).

(** [RecipeManager()] *)
Definition manager_init : M RecipeManager :=
  ing <- load_data INGREDIENTS_FILE ;;
  rec <- load_data RECIPES_FILE ;;
  ret (mkManager ing rec).

Definition cost_prompt (name : string) : string :=
  ("Enter cost per gram for " ++ name ++ ": ")%string.

Definition weight_prompt (name : string) : string :=
  ("Enter weight in grams for " ++ name ++ ": ")%string.

Definition get_cost_per_gram (name : string) (self : RecipeManager)
  : M (pyfloat * RecipeManager) :=
  name <- suggest_name name (Dict.keys (ingredients_db self)) ;;
  match Dict.get name (ingredients_db self) with
  | Some cost => ret (cost, self)
  | None =>
      cost <- get_positive_float (cost_prompt name) ;;
      let self := mkManager (Dict.set name cost (ingredients_db self))
                    (recipes_db self) in
      save_data INGREDIENTS_FILE (ingredients_db self) ;;;
      ret (cost, self)
  end.

(** The [while True] loop of [create_recipe].  Every iteration reads at
    least one line, so [fuel] bounds the iterations by the number of lines
    available; [Diverged] marks the bound and is never returned by
    [create_recipe]. *)
Fixpoint add_ingredients (fuel : nat) (self : RecipeManager) (recipe : Recipe.t)
  : M (Recipe.t * RecipeManager) :=
  match fuel with
  | O => raise Diverged
  | S fuel' =>
      ing_name <- get_non_empty_string "Enter ingredient name: " ;;
      ing_name <- suggest_name ing_name (Dict.keys (ingredients_db self)) ;;
      weight <- get_positive_float (weight_prompt ing_name) ;;
      cs <- get_cost_per_gram ing_name self ;;
      let '(cost_per_g, self) := cs in
      let ingredient := Ingredient.make ing_name weight cost_per_g in
      let recipe := Recipe.add_ingredient recipe ingredient in
      cont <- input "Add another ingredient? (y/n): " ;;
      if String.eqb (Str.lower cont) "y"
      then add_ingredients fuel' self recipe
      else ret (recipe, self)
  end.

(** The line printed at the end of [create_recipe]. *)
Definition cost_line (name : string) (cost : pyfloat) : string :=
  (LF ++ "✅ Cost per portion for '" ++ name ++ "': $" ++ fmt2f cost)%string.

(** Lines 94-96: the name and the portion count of the new recipe. *)
Definition new_recipe : M Recipe.t :=
  name <- get_non_empty_string "Enter recipe name: " ;;
  value <- get_positive_float "Enter number of portions: " ;;
  portions <- lift (int_of_float value) ;;
  ret (Recipe.init name portions).

(** Lines 110-113. *)
Definition store_recipe (self : RecipeManager) (recipe : Recipe.t)
  : M (unit * RecipeManager) :=
  cost <- lift (Recipe.cost_per_portion recipe) ;;
  print (cost_line (Recipe.name recipe) cost) ;;;
  let self := mkManager (ingredients_db self)
                (Dict.set (Recipe.name recipe) (Float.round2 cost)
                   (recipes_db self)) in
  save_data RECIPES_FILE (recipes_db self) ;;;
  ret (tt, self).

Definition create_recipe (self : RecipeManager) : M (unit * RecipeManager) :=
  fun w =>
    (recipe <- new_recipe ;;
     rs <- add_ingredients (S (List.length (stdin w))) self recipe ;;
     let '(recipe, self) := rs in
     store_recipe self recipe) w.

Definition recipe_line (entry : string * pyfloat) : string :=
  (" - " ++ fst entry ++ ": $" ++ fmt2f (snd entry))%string.

Fixpoint print_all (lines : list string) : M unit :=
  match lines with
  | [] => ret tt
  | l :: lines' => print l ;;; print_all lines'
  end.

Definition view_recipe_cost (self : RecipeManager) : M (unit * RecipeManager) :=
  if Dict.is_empty (recipes_db self) then
    print "📭 No recipes stored yet." ;;; ret (tt, self)
  else
    print (LF ++ "📚 Stored Recipe Costings:")%string ;;;
    print_all (map recipe_line (recipes_db self)) ;;;
    ret (tt, self).

Definition main : M unit :=
  manager <- manager_init ;;
  action <- input "View recipe cost or create new recipe? (view/create): " ;;
  let action := Str.lower action in
  if String.eqb action "view" then
    r <- view_recipe_cost manager ;; ret tt
  else if String.eqb action "create" then
    r <- create_recipe manager ;; ret tt
  else print "Invalid option.".

(** *** Sequences of operations on one manager *)

Inductive operation : Type :=
| GetCostPerGram (name : string)
| CreateRecipe
| ViewRecipeCost.

Definition run_operation (o : operation) (self : RecipeManager)
  : M RecipeManager :=
  match o with
  | GetCostPerGram name => r <- get_cost_per_gram name self ;; ret (snd r)
  | CreateRecipe => r <- create_recipe self ;; ret (snd r)
  | ViewRecipeCost => r <- view_recipe_cost self ;; ret (snd r)
  end.

Fixpoint run_operations (os : list operation) (self : RecipeManager)
  : M RecipeManager :=
  match os with
  | [] => ret self
  | o :: os' => self' <- run_operation o self ;; run_operations os' self'
  end.

End Program.

(** ** Text and numbers

    One instance of the conversions that the program takes from Python's
    runtime, on plain decimal numerals (digit separators are not read): the
    value of a numeral is taken exactly.  It agrees with Python wherever the
    numeral denotes a double (such as [0.5] or [4]), and it is what the closed
    examples of this file run on. *)

Module PyText.

Definition digit_of (c : ascii) : option Z :=
  let n := N_of_ascii c in
  if ((48 <=? n) && (n <=? 57))%N then Some (Z.of_N n - 48) else None.

(** Reads the leading run of digits of [s] on top of [acc]: the value, how
    many digits were read, and what follows them. *)
Fixpoint digits (s : string) (acc : Z) (count : nat) : Z * nat * string :=
  match s with
  | EmptyString => (acc, count, s)
  | String c s' =>
      match digit_of c with
      | Some d => digits s' (10 * acc + d) (S count)
      | None => (acc, count, s)
      end
  end.

Definition sign_of (s : string) : bool * string :=
  match s with
  | String "-" s' => (true, s')
  | String "+" s' => (false, s')
  | _ => (false, s)
  end.

(** The exponent part: [e] or [E], a sign, at least one digit. *)
Definition exponent (s : string) : option (Z * string) :=
  match s with
  | String c s' =>
      if Ascii.eqb c "e" || Ascii.eqb c "E" then
        let '(neg, s1) := sign_of s' in
        let '(e, n, s2) := digits s1 0 O in
        match n with
        | O => None
        | _ => Some (if neg then - e else e, s2)
        end
      else Some (0, s)
  | EmptyString => Some (0, s)
  end.

Definition scale (m e : Z) : Q :=
  if 0 <=? e then inject_Z (m * 10 ^ e)
  else Qred (Qmake m (Z.to_pos (10 ^ (- e)))).

(** [float(s)] on a decimal numeral, [inf], [infinity] or [nan]. *)
Definition float_of_str (s : string) : option pyfloat :=
  let '(neg, body) := sign_of (Str.strip s) in
  let name := Str.lower body in
  if String.eqb name "inf" || String.eqb name "infinity"
  then Some (if neg then NInf else PInf)
  else if String.eqb name "nan" then Some NaN
  else
    let '(i, ni, s1) := digits body 0 O in
    let '(m, nf, s2) :=
      match s1 with
      | String "." s1' => digits s1' i O
      | _ => (i, O, s1)
      end in
    match (ni + nf)%nat with
    | O => None
    | _ =>
        match exponent s2 with
        | Some (e, EmptyString) =>
            let m := if neg then - m else m in
            Some (Fin (scale m (e - Z.of_nat nf)))
        | _ => None
        end
    end.

Definition str_of_nat (n : N) : string :=
  DecimalString.NilZero.string_of_uint (N.to_uint n).

Fixpoint zeros (n : nat) : string :=
  match n with
  | O => EmptyString
  | S n' => String "0" (zeros n')
  end.

(** [n] written on at least [width] digits. *)
Definition padded (width : nat) (n : N) : string :=
  let s := str_of_nat n in
  (zeros (width - String.length s) ++ s)%string.

(** The least [k <= fuel] such that [10^k] is a multiple of [den]. *)
Fixpoint decimals (fuel : nat) (k : nat) (den : Z) : option nat :=
  if (10 ^ Z.of_nat k) mod den =? 0 then Some k
  else match fuel with
       | O => None
       | S fuel' => decimals fuel' (S k) den
       end.

(** [a / 10^k] in positional notation, for a natural [a], with its sign. *)
Definition positional (neg : bool) (a : Z) (k : nat) : string :=
  let p := 10 ^ Z.of_nat k in
  ((if neg then "-" else "")
   ++ str_of_nat (Z.to_N (a / p)) ++ "." ++ padded k (Z.to_N (a mod p)))%string.

(** [repr(v)], in the positional notation that Python uses for magnitudes
    from 1e-4 up to 1e16.  A value that is not a finite decimal (no double is
    one) is cut after 17 fractional digits. *)
Definition repr (v : pyfloat) : string :=
  match v with
  | PInf => "inf"
  | NInf => "-inf"
  | NaN => "nan"
  | Fin q =>
      let q := Qred q in
      let den := Zpos (Qden q) in
      match decimals (Pos.size_nat (Qden q)) O den with
      | Some k =>
          let k := Nat.max k 1 in
          positional (Qnum q <? 0) (Z.abs (Qnum q) * (10 ^ Z.of_nat k / den)) k
      | None => positional (Qnum q <? 0) (Z.abs (Qnum q) * 10 ^ 17 / den) 17
      end
  end.

(** [format(v, ".2f")] *)
Definition fmt2f (v : pyfloat) : string :=
  match v with
  | PInf => "inf"
  | NInf => "-inf"
  | NaN => "nan"
  | Fin q => positional (Qnum q <? 0) (Z.abs (Float.round_half_even q)) 2
  end.

End PyText.

(** ** JSON documents of a store

    [json.dumps(d, indent=2)] and [json.loads] of Python's [json] package, on
    the documents that a store holds: one object whose values are numbers.
    The writer is the package's [encode_basestring_ascii] and indented object
    writer; the reader follows its [JSONObject], [scanstring] and number
    pattern.  A document of another shape (an array, a nested object, a
    string value, a character beyond Latin-1) is outside this model and is
    read as [None], like a malformed one.  An integer numeral is read as the
    float of the same value. *)

Module Json.

Definition DQUOTE : ascii := ascii_of_N 34.
Definition BACKSLASH : ascii := ascii_of_N 92.
Definition NEWLINE : ascii := ascii_of_N 10.

Definition is_code (n : N) (c : ascii) : bool := (N_of_ascii c =? n)%N.

(** *** Writing *)

(** One lower-case hexadecimal digit. *)
Definition hex_digit (n : N) : ascii :=
  if (n <? 10)%N then ascii_of_N (48 + n) else ascii_of_N (87 + n).

Definition escape_char (c : ascii) : string :=
  let n := N_of_ascii c in
  let esc (e : ascii) := String BACKSLASH (String e EmptyString) in
  if (n =? 34)%N then esc DQUOTE
  else if (n =? 92)%N then esc BACKSLASH
  else if (n =? 8)%N then esc "b"%char
  else if (n =? 12)%N then esc "f"%char
  else if (n =? 10)%N then esc "n"%char
  else if (n =? 13)%N then esc "r"%char
  else if (n =? 9)%N then esc "t"%char
  else if ((32 <=? n) && (n <=? 126))%N then String c EmptyString
  else String BACKSLASH
         (String "u" (String "0" (String "0"
            (String (hex_digit (n / 16)) (String (hex_digit (n mod 16))
               EmptyString))))).

Fixpoint escape (s : string) : string :=
  match s with
  | EmptyString => EmptyString
  | String c s' => (escape_char c ++ escape s')%string
  end.

(** [encode_basestring_ascii] *)
Definition encode_string (s : string) : string :=
  String DQUOTE (escape s ++ String DQUOTE EmptyString)%string.

(** *** Reading *)

Definition is_ws (c : ascii) : bool :=
  is_code 32 c || is_code 9 c || is_code 10 c || is_code 13 c.

Fixpoint skip_ws (s : string) : string :=
  match s with
  | String c s' => if is_ws c then skip_ws s' else s
  | EmptyString => s
  end.

Definition hex_value (c : ascii) : option N :=
  let n := N_of_ascii c in
  if ((48 <=? n) && (n <=? 57))%N then Some (n - 48)%N
  else if ((97 <=? n) && (n <=? 102))%N then Some (n - 87)%N
  else if ((65 <=? n) && (n <=? 70))%N then Some (n - 55)%N
  else None.

Definition hex4 (a b c d : ascii) : option N :=
  match hex_value a, hex_value b, hex_value c, hex_value d with
  | Some x, Some y, Some z, Some t => Some (((x * 16 + y) * 16 + z) * 16 + t)%N
  | _, _, _, _ => None
  end.

(** The character that follows a backslash, other than [u]. *)
Definition unescape (e : ascii) : option ascii :=
  if is_code 34 e then Some DQUOTE
  else if is_code 92 e then Some BACKSLASH
  else if is_code 47 e then Some "/"%char
  else if is_code 98 e then Some (ascii_of_N 8)
  else if is_code 102 e then Some (ascii_of_N 12)
  else if is_code 110 e then Some NEWLINE
  else if is_code 114 e then Some (ascii_of_N 13)
  else if is_code 116 e then Some (ascii_of_N 9)
  else None.

Definition cons_char (c : ascii) (r : option (string * string))
  : option (string * string) :=
  match r with
  | Some (s, rest) => Some (String c s, rest)
  | None => None
  end.

(** [scanstring], strict: from just after the opening quote to just after
    the closing one. *)
Fixpoint scan_string (s : string) : option (string * string) :=
  match s with
  | EmptyString => None
  | String c s' =>
      if is_code 34 c then Some (EmptyString, s')
      else if is_code 92 c then
        match s' with
        | EmptyString => None
        | String e s'' =>
            if is_code 117 e then
              match s'' with
              | String h1 (String h2 (String h3 (String h4 s3))) =>
                  match hex4 h1 h2 h3 h4 with
                  | Some n =>
                      if (n <? 256)%N then cons_char (ascii_of_N n) (scan_string s3)
                      else None
                  | None => None
                  end
              | _ => None
              end
            else
              match unescape e with
              | Some ch => cons_char ch (scan_string s'')
              | None => None
              end
        end
      else if (N_of_ascii c <? 32)%N then None
      else cons_char c (scan_string s')
  end.

Definition is_digit (c : ascii) : bool :=
  let n := N_of_ascii c in ((48 <=? n) && (n <=? 57))%N.

(** The leading run of digits and what follows it. *)
Fixpoint take_digits (s : string) : string * string :=
  match s with
  | String c s' =>
      if is_digit c then let '(ds, r) := take_digits s' in (String c ds, r)
      else (EmptyString, s)
  | EmptyString => (EmptyString, s)
  end.

Definition is_empty (s : string) : bool :=
  match s with EmptyString => true | _ => false end.

(** The three groups of the number pattern: an integer part (an optional
    minus sign, then a single 0 or a run of digits that does not start with
    0), an optional fraction (a dot and at least one digit) and an optional
    exponent (e or E, an optional sign, at least one digit). *)
Definition match_int (s : string) : option (string * string) :=
  let '(sgn, s1) :=
    match s with
    | String c s' => if is_code 45 c then (String c EmptyString, s') else (EmptyString, s)
    | EmptyString => (EmptyString, s)
    end in
  match s1 with
  | String c s2 =>
      if is_code 48 c then Some ((sgn ++ String c EmptyString)%string, s2)
      else if is_digit c then
        let '(ds, r) := take_digits s2 in Some ((sgn ++ String c ds)%string, r)
      else None
  | EmptyString => None
  end.

Definition match_frac (s : string) : string * string :=
  match s with
  | String c s' =>
      if is_code 46 c then
        let '(ds, r) := take_digits s' in
        if is_empty ds then (EmptyString, s) else (String c ds, r)
      else (EmptyString, s)
  | EmptyString => (EmptyString, s)
  end.

Definition match_exp (s : string) : string * string :=
  match s with
  | String c s' =>
      if is_code 101 c || is_code 69 c then
        let '(sg, s1) :=
          match s' with
          | String d s'' =>
              if is_code 45 d || is_code 43 d then (String d EmptyString, s'')
              else (EmptyString, s')
          | EmptyString => (EmptyString, s')
          end in
        let '(ds, r) := take_digits s1 in
        if is_empty ds then (EmptyString, s) else (String c (sg ++ ds)%string, r)
      else (EmptyString, s)
  | EmptyString => (EmptyString, s)
  end.

(** [int(text)] on the text of the first group. *)
Definition int_of_text (text : string) : Z :=
  let '(neg, body) := PyText.sign_of text in
  let '(n, _, _) := PyText.digits body 0 O in
  if neg then - n else n.

(** [s] without its prefix [p], when it starts with it. *)
Fixpoint after (p s : string) : option string :=
  match p, s with
  | EmptyString, _ => Some s
  | String a p', String b s' => if Ascii.eqb a b then after p' s' else None
  | String _ _, EmptyString => None
  end.

Section Codec.

(** [float.__repr__] and [float] on a string. *)
Variable float_repr : pyfloat -> string.
Variable float_of_str : string -> option pyfloat.

(** [floatstr] of the encoder. *)
Definition floatstr (v : pyfloat) : string :=
  match v with
  | NaN => "NaN"
  | PInf => "Infinity"
  | NInf => "-Infinity"
  | Fin _ => float_repr v
  end.

Definition item (kv : string * pyfloat) : string :=
  (encode_string (fst kv) ++ ": " ++ floatstr (snd kv))%string.

Definition newline_indent : string := String NEWLINE "  ".

(** The items, each one after the separator [sep] except the first. *)
Fixpoint items (first : bool) (d : dict) : string :=
  match d with
  | [] => EmptyString
  | kv :: d' =>
      ((if first then "" else ",") ++ newline_indent ++ item kv
       ++ items false d')%string
  end.

Definition dumps (d : dict) : string :=
  match d with
  | [] => "{}"
  | _ => ("{" ++ items true d ++ String NEWLINE "}")%string
  end.

(** One value: a number of the pattern, or one of the three constants. *)
Definition scan_value (s : string) : option (pyfloat * string) :=
  match match_int s with
  | Some (i, s1) =>
      let '(f, s2) := match_frac s1 in
      let '(e, s3) := match_exp s2 in
      if is_empty f && is_empty e then Some (Float.of_int (int_of_text i), s3)
      else
        match float_of_str (i ++ f ++ e)%string with
        | Some v => Some (v, s3)
        | None => None
        end
  | None =>
      match after "NaN" s with
      | Some r => Some (NaN, r)
      | None =>
          match after "Infinity" s with
          | Some r => Some (PInf, r)
          | None =>
              match after "-Infinity" s with
              | Some r => Some (NInf, r)
              | None => None
              end
          end
      end
  end.

(** The loop of [JSONObject], from just after the opening quote of a key.
    Each pair takes at least one character, so the length of the text bounds
    the pairs. *)
Fixpoint scan_pairs (fuel : nat) (s : string) (pairs : list (string * pyfloat))
  : option (list (string * pyfloat) * string) :=
  match fuel with
  | O => None
  | S fuel' =>
      match scan_string s with
      | None => None
      | Some (key, s1) =>
          match skip_ws s1 with
          | String c s2 =>
              if is_code 58 c then
                match scan_value (skip_ws s2) with
                | None => None
                | Some (value, s3) =>
                    let pairs := pairs ++ [(key, value)] in
                    match skip_ws s3 with
                    | String c' s4 =>
                        if is_code 125 c' then Some (pairs, s4)
                        else if is_code 44 c' then
                          match skip_ws s4 with
                          | String q s5 =>
                              if is_code 34 q then scan_pairs fuel' s5 pairs
                              else None
                          | EmptyString => None
                          end
                        else None
                    | EmptyString => None
                    end
                end
              else None
          | EmptyString => None
          end
      end
  end.

(** [dict(pairs)] *)
Definition dict_of_pairs (pairs : list (string * pyfloat)) : dict :=
  fold_left (fun d kv => Dict.set (fst kv) (snd kv) d) pairs [].

(** The end of the document: only white space may follow the object. *)
Definition finish (d : dict) (rest : string) : option dict :=
  if is_empty (skip_ws rest) then Some d else None.

Definition loads (s : string) : option dict :=
  match skip_ws s with
  | String c s1 =>
      if is_code 123 c then
        match skip_ws s1 with
        | String c' s2 =>
            if is_code 125 c' then finish [] s2
            else if is_code 34 c' then
              match scan_pairs (String.length s2) s2 [] with
              | Some (pairs, rest) => finish (dict_of_pairs pairs) rest
              | None => None
              end
            else None
        | EmptyString => None
        end
      else None
  | EmptyString => None
  end.

(** A text that the number pattern matches as a whole, with a fraction or
    an exponent: the shape of every [repr] of a finite float. *)
Definition float_token (t : string) : bool :=
  match match_int t with
  | Some (i, s1) =>
      let '(f, s2) := match_frac s1 in
      let '(e, s3) := match_exp s2 in
      is_empty s3 && negb (is_empty f && is_empty e)
  | None => false
  end.

End Codec.

(** What follows a value in a written document: a comma or a line break. *)
Definition closes (rest : string) : Prop :=
  match rest with
  | String c _ => is_code 44 c = true \/ is_code 10 c = true
  | EmptyString => False
  end.

End Json.

(** ** Statements taken from the specification *)

(** The candidates of the name resolver when only the substring clause of
    the filter is kept. *)
Definition substring_candidates (input_name : string) (valid_names : list string)
  : list string :=
  filter (fun name => Str.contains (Str.lower input_name) (Str.lower name))
    valid_names.

(** The answer to the confirmation prompt read as the specification words
    it: the answer itself is [y] up to case. *)
Definition accepts_as_worded (answer : string) : bool :=
  String.eqb (Str.lower answer) "y".

(** What the code tests on the answer. *)
Definition accepts (answer : string) : bool :=
  String.eqb (Str.lower (Str.strip answer)) "y".

(** Every entry of [d] is an entry of [d']. *)
Definition keeps (d d' : dict) : Prop :=
  forall k v, Dict.get k d = Some v -> Dict.get k d' = Some v.

(** Splits the outermost [bind] of the hypothesis [H] on the outcome of its
    first computation: the value [a] and the world [w1] when it returns;
    [E] is the equation of that computation. *)
Tactic Notation "bind_cases" hyp(H) ident(a) ident(w1) ident(E) :=
  unfold bind in H at 1;
  match type of H with
  | match ?m with _ => _ end = _ => destruct m as [[a | ?] w1] eqn:E
  end.

(** ** Descriptions used by the further properties *)

(** A line that [get_positive_float] turns down (not a number, or a number
    that is not positive), and what the function prints for it. *)
Definition turned_down (float_of_str : string -> option pyfloat) (line : string)
  : bool :=
  match float_of_str line with
  | Some value => negb (Float.gt0 value)
  | None => true
  end.

Definition complaint (float_of_str : string -> option pyfloat) (line : string)
  : string :=
  match float_of_str line with
  | Some _ => "Please enter a positive number."
  | None => "Invalid input. Please enter a number."
  end.

(** A line that [get_non_empty_string] turns down: white space only. *)
Definition blank (line : string) : bool := negb (Str.truthy (Str.strip line)).

(** What a validation loop writes for the lines it turns down: the prompt
    and a message, once per line. *)
Definition retries (prompt : string) (message : string -> string)
    (lines : list string) : list string :=
  flat_map (fun line => [prompt; message line]) lines.

(** No two names of the store are equal up to case. *)
Definition distinct_up_to_case (d : dict) : Prop :=
  NoDup (map Str.lower (Dict.keys d)).

(** The file of a store holds what was last written for it: the document
    of the store, or nothing yet for a store that is still empty. *)
Definition mirrors (json_dumps : dict -> string) (file : string) (store : dict)
    (fs : list (string * string)) : Prop :=
  match FS.read file fs with
  | Some content => content = json_dumps store
  | None => store = []
  end.

(** The float [v] is written as a text that is read as the float [v']:
    for a finite float, a number text that [float] reads as [v']; the three
    special values are read as themselves. *)
Definition reads_as (float_repr : pyfloat -> string)
    (float_of_str : string -> option pyfloat) (v v' : pyfloat) : Prop :=
  match v with
  | Fin _ => Json.float_token (float_repr v) = true
             /\ float_of_str (float_repr v) = Some v'
  | _ => v' = v
  end.

(** The finite float [v] is read back: [repr] writes it as a number text
    that [float] reads as a float equal to [v].  (Nothing is asked of the
    special values, which the package writes and reads by name.) *)
Definition read_back (float_repr : pyfloat -> string)
    (float_of_str : string -> option pyfloat) (v : pyfloat) : Prop :=
  match v with
  | Fin _ => Json.float_token (float_repr v) = true
             /\ exists v', float_of_str (float_repr v) = Some v'
                           /\ Float.eqb v' v = true
  | _ => True
  end.

(** The store [d] is written as a document that is read as the store [d']:
    the same names in the same order, each value read as a float that is
    equal to it. *)
Definition store_reads_as (float_repr : pyfloat -> string)
    (float_of_str : string -> option pyfloat) (d d' : dict) : Prop :=
  Forall2 (fun kv kv' => fst kv' = fst kv
                         /\ reads_as float_repr float_of_str (snd kv) (snd kv')
                         /\ Float.eqb (snd kv') (snd kv) = true) d d'.

(** What [view_recipe_cost] prints for a recipe store. *)
Definition listing (fmt2f : pyfloat -> string) (store : dict) : list string :=
  match store with
  | [] => ["📭 No recipes stored yet."]
  | _ => (LF ++ "📚 Stored Recipe Costings:")%string
         :: map (recipe_line fmt2f) store
  end.

(** How a manager and the files can change together: nothing changes, or
    an ingredient whose name is new up to case is added last with a positive
    cost and the ingredient file is rewritten, or a recipe cost is set and
    the recipe file is rewritten. *)
Inductive evolves (json_dumps : dict -> string)
  : RecipeManager -> list (string * string)
    -> RecipeManager -> list (string * string) -> Prop :=
| evolves_refl (m : RecipeManager) (fs : list (string * string)) :
    evolves json_dumps m fs m fs
| evolves_ingredient (m m' : RecipeManager) (fs fs' : list (string * string))
    (name : string) (cost : pyfloat) :
    evolves json_dumps m fs m' fs' ->
    (forall key, In key (Dict.keys (ingredients_db m')) ->
                 Str.lower key <> Str.lower name) ->
    Float.gt0 cost = true ->
    evolves json_dumps m fs
      (mkManager (ingredients_db m' ++ [(name, cost)]) (recipes_db m'))
      (FS.write INGREDIENTS_FILE
         (json_dumps (ingredients_db m' ++ [(name, cost)])) fs')
| evolves_recipe (m m' : RecipeManager) (fs fs' : list (string * string))
    (name : string) (cost : pyfloat) :
    evolves json_dumps m fs m' fs' ->
    evolves json_dumps m fs
      (mkManager (ingredients_db m')
         (Dict.set name (Float.round2 cost) (recipes_db m')))
      (FS.write RECIPES_FILE
         (json_dumps (Dict.set name (Float.round2 cost) (recipes_db m'))) fs').

(** * Properties *)

(** ** Name resolution *)

Lemma prefix_iff (p : string) :
  forall s, String.prefix p s = true <-> exists b, s = (p ++ b)%string.
Proof.
  induction p as [|x p IH]; intros s; simpl.
  - destruct s; split; intros _; try reflexivity; eexists; reflexivity.
  - destruct s as [|y s]; simpl.
    + split; [discriminate | intros [b Hb]; discriminate].
    + destruct (ascii_dec x y) as [->|Hne].
      * rewrite IH. split; intros [b Hb]; exists b; congruence.
      * split; [discriminate | intros [b Hb]; congruence].
Qed.

(** [Str.contains] is the substring relation. *)
Lemma contains_iff (needle : string) :
  forall hay,
    Str.contains needle hay = true
    <-> exists a b, hay = (a ++ needle ++ b)%string.
Proof.
  induction hay as [|c hay IH]; cbn [Str.contains].
  - rewrite prefix_iff. split.
    + intros [b Hb]. exists EmptyString, b. exact Hb.
    + intros [a [b Hab]]. destruct a; [|discriminate]. exists b. exact Hab.
  - rewrite orb_true_iff, IH.
    rewrite (prefix_iff needle (String c hay)). split.
    + intros [[b Hb]|[a [b Hab]]].
      * exists EmptyString, b. exact Hb.
      * exists (String c a), b. simpl. rewrite Hab. reflexivity.
    + intros [a [b Hab]]. destruct a as [|x a]; simpl in Hab.
      * left. exists b. exact Hab.
      * right. exists a, b. congruence.
Qed.

Lemma prefix_contains (p s : string) :
  String.prefix p s = true -> Str.contains p s = true.
Proof.
  destruct s as [|c s]; simpl; intros H.
  - exact H.
  - rewrite H. reflexivity.
Qed.

Lemma is_suggestion_contains (il name : string) :
  is_suggestion il name = Str.contains il (Str.lower name).
Proof.
  unfold is_suggestion, Str.startswith.
  destruct (Str.contains il (Str.lower name)) eqn:Hc; [reflexivity|].
  destruct (String.prefix il (Str.lower name)) eqn:Hp; [|reflexivity].
  apply prefix_contains in Hp. congruence.
Qed.

(** C10: the filter of [suggest_name] with its two clauses (substring, or
    prefix) selects exactly the names that the substring clause alone
    selects, in the same order. *)
Theorem startswith_clause_redundant (input_name : string) (valid_names : list string) :
  suggestions_of input_name valid_names
  = substring_candidates input_name valid_names.
Proof.
  unfold suggestions_of, substring_candidates.
  induction valid_names as [|name names IH]; simpl.
  - reflexivity.
  - rewrite is_suggestion_contains, IH. reflexivity.
Qed.

Lemma find_exact_match_some (il : string) (names : list string) :
  (exists name, In name names /\ Str.lower name = il) ->
  exists name, find (exact_match il) names = Some name
               /\ In name names /\ Str.lower name = il.
Proof.
  intros [n [Hin Hl]].
  destruct (find (exact_match il) names) as [name|] eqn:Hf.
  - exists name. apply find_some in Hf. destruct Hf as [Hin' He].
    unfold exact_match in He. apply String.eqb_eq in He. auto.
  - exfalso. apply (find_none _ _ Hf) in Hin.
    unfold exact_match in Hin. rewrite Hl, String.eqb_refl in Hin. discriminate.
Qed.

Lemma find_exact_match_none (il : string) (names : list string) :
  (forall name, In name names -> Str.lower name <> il) ->
  find (exact_match il) names = None.
Proof.
  intros H. destruct (find (exact_match il) names) as [name|] eqn:Hf; [|reflexivity].
  apply find_some in Hf. destruct Hf as [Hin He].
  unfold exact_match in He. apply String.eqb_eq in He.
  exfalso. exact (H name Hin He).
Qed.

(** C4: when some known name equals the typed name up to case,
    [suggest_name] returns such a known name (the first one in iteration
    order) and leaves the world as it was: nothing is written, no line is
    read. *)
Theorem suggest_name_exact (input_name : string) (valid_names : list string)
    (w : World) :
  (exists name, In name valid_names /\ Str.lower name = Str.lower input_name) ->
  exists name,
    In name valid_names
    /\ Str.lower name = Str.lower input_name
    /\ find (exact_match (Str.lower input_name)) valid_names = Some name
    /\ suggest_name input_name valid_names w = (Ok name, w).
Proof.
  intros H. apply find_exact_match_some in H.
  destruct H as [name [Hf [Hin Hl]]].
  exists name. repeat split; auto.
  unfold suggest_name. rewrite Hf. reflexivity.
Qed.

Lemma suggest_name_exact_witness :
  exists name,
    In name ["sugar"; "flour"]
    /\ Str.lower name = Str.lower "Flour"
    /\ find (exact_match (Str.lower "Flour")) ["sugar"; "flour"] = Some name
    /\ suggest_name "Flour" ["sugar"; "flour"] (mkWorld ["n"] [] [])
       = (Ok name, mkWorld ["n"] [] []).
Proof.
  apply (suggest_name_exact "Flour" ["sugar"; "flour"] (mkWorld ["n"] [] [])).
  exists "flour". split; [simpl; auto | reflexivity].
Defined.

(** C3, as amended: without a match up to case, [suggest_name] returns the
    typed name and leaves the world alone when no known name is a
    candidate; otherwise it writes one prompt naming the first candidate,
    reads one line, and returns the candidate when that line, stripped of
    surrounding white space and lower-cased, is [y], the typed name
    otherwise. *)
Theorem suggest_name_fuzzy (input_name : string) (valid_names : list string)
    (w : World) :
  (forall name, In name valid_names -> Str.lower name <> Str.lower input_name) ->
  match suggestions_of input_name valid_names with
  | [] => suggest_name input_name valid_names w = (Ok input_name, w)
  | candidate :: _ =>
      let out := stdout w ++ [confirm_prompt candidate input_name] in
      match stdin w with
      | answer :: rest =>
          suggest_name input_name valid_names w
          = (Ok (if accepts answer then candidate else input_name),
             mkWorld rest out (files w))
      | [] =>
          suggest_name input_name valid_names w
          = (Raise EOFError, mkWorld [] out (files w))
      end
  end.
Proof.
  intros H. apply find_exact_match_none in H.
  unfold suggest_name. rewrite H.
  destruct (suggestions_of input_name valid_names) as [|candidate l].
  - reflexivity.
  - unfold bind, input, accepts. destruct (stdin w) as [|answer rest]; reflexivity.
Qed.

Lemma suggest_name_fuzzy_witness :
  suggest_name "Suga" ["Salt"; "Sugar"; "Brown sugar"] (mkWorld [" Y "; "n"] [] [])
  = (Ok "Sugar",
     mkWorld ["n"] ["Did you mean 'Sugar' instead of 'Suga'? (y/n): "] []).
Proof.
  apply (suggest_name_fuzzy "Suga" ["Salt"; "Sugar"; "Brown sugar"]
           (mkWorld [" Y "; "n"] [] [])).
  intros name [<-|[<-|[<-|[]]]]; discriminate.
Defined.

(** C3, as worded, fails: the answer [" y"] is not [y] up to case, and
    yet the candidate is returned instead of the typed name. *)
Lemma suggest_name_answer_stripped :
  (forall name, In name ["Sugar"] -> Str.lower name <> Str.lower "Suga")
  /\ suggestions_of "Suga" ["Sugar"] = ["Sugar"]
  /\ accepts_as_worded " y" = false
  /\ fst (suggest_name "Suga" ["Sugar"] (mkWorld [" y"] [] [])) = Ok "Sugar"
  /\ fst (suggest_name "Suga" ["Sugar"] (mkWorld [" y"] [] [])) <> Ok "Suga".
Proof.
  repeat split; try reflexivity.
  - intros name [<-|[]]; discriminate.
  - discriminate.
Qed.

(** ** Costs *)



(** ** Effects of the console helpers *)

Lemma get_positive_float_on_spec (float_of_str : string -> option pyfloat)
    (prompt : string) (lines out : list string) :
  forall r lines' out',
    get_positive_float_on float_of_str prompt lines out = (r, (lines', out')) ->
    (List.length lines' <= List.length lines)%nat
    /\ match r with
       | Ok v => Float.gt0 v = true /\ (List.length lines' < List.length lines)%nat
       | Raise e => e = EOFError
       end.
Proof.
  revert out. induction lines as [|line rest IH]; intros out r lines' out' H; simpl in H.
  - inversion H; subst. simpl. auto.
  - destruct (float_of_str line) as [value|].
    + destruct (Float.gt0 value) eqn:Hg.
      * inversion H; subst. simpl. split; [lia|]. split; [exact Hg | lia].
      * apply IH in H. destruct H as [Hle Hr]. simpl. split; [lia|].
        destruct r; [|exact Hr]. destruct Hr. split; [assumption | lia].
    + apply IH in H. destruct H as [Hle Hr]. simpl. split; [lia|].
      destruct r; [|exact Hr]. destruct Hr. split; [assumption | lia].
Qed.

Lemma get_non_empty_string_on_spec (prompt : string) (lines out : list string) :
  forall r lines' out',
    get_non_empty_string_on prompt lines out = (r, (lines', out')) ->
    (List.length lines' <= List.length lines)%nat
    /\ match r with
       | Ok v => Str.truthy v = true /\ (List.length lines' < List.length lines)%nat
       | Raise e => e = EOFError
       end.
Proof.
  revert out. induction lines as [|line rest IH]; intros out r lines' out' H; simpl in H.
  - inversion H; subst. simpl. auto.
  - destruct (Str.truthy (Str.strip line)) eqn:Ht.
    + inversion H; subst. simpl. split; [lia|]. split; [exact Ht | lia].
    + apply IH in H. destruct H as [Hle Hr]. simpl. split; [lia|].
      destruct r; [|exact Hr]. destruct Hr. split; [assumption | lia].
Qed.

Lemma get_positive_float_effect (float_of_str : string -> option pyfloat)
    (prompt : string) (w : World) (r : result pyfloat) (w' : World) :
  get_positive_float float_of_str prompt w = (r, w') ->
  files w' = files w
  /\ (List.length (stdin w') <= List.length (stdin w))%nat
  /\ match r with
     | Ok v => Float.gt0 v = true
               /\ (List.length (stdin w') < List.length (stdin w))%nat
     | Raise e => e = EOFError
     end.
Proof.
  unfold get_positive_float.
  destruct (get_positive_float_on float_of_str prompt (stdin w) (stdout w))
    as [r0 [lines out]] eqn:E.
  intros H. inversion H; subst. simpl.
  apply get_positive_float_on_spec in E. tauto.
Qed.

Lemma get_non_empty_string_effect (prompt : string) (w : World)
    (r : result string) (w' : World) :
  get_non_empty_string prompt w = (r, w') ->
  files w' = files w
  /\ (List.length (stdin w') <= List.length (stdin w))%nat
  /\ match r with
     | Ok v => Str.truthy v = true
               /\ (List.length (stdin w') < List.length (stdin w))%nat
     | Raise e => e = EOFError
     end.
Proof.
  unfold get_non_empty_string.
  destruct (get_non_empty_string_on prompt (stdin w) (stdout w))
    as [r0 [lines out]] eqn:E.
  intros H. inversion H; subst. simpl.
  apply get_non_empty_string_on_spec in E. tauto.
Qed.

Lemma input_effect (prompt : string) (w : World) (r : result string) (w' : World) :
  input prompt w = (r, w') ->
  files w' = files w
  /\ (List.length (stdin w') <= List.length (stdin w))%nat
  /\ match r with Ok _ => True | Raise e => e = EOFError end.
Proof.
  unfold input. destruct (stdin w) as [|line rest] eqn:E; intros H;
    inversion H; subst; simpl; repeat split; auto; lia.
Qed.

Lemma suggest_name_effect (input_name : string) (valid_names : list string)
    (w : World) (r : result string) (w' : World) :
  suggest_name input_name valid_names w = (r, w') ->
  files w' = files w
  /\ (List.length (stdin w') <= List.length (stdin w))%nat
  /\ match r with Ok _ => True | Raise e => e = EOFError end.
Proof.
  unfold suggest_name.
  destruct (find _ valid_names) as [name|].
  - intros H. inversion H; subst. auto.
  - destruct (suggestions_of input_name valid_names) as [|candidate l].
    + intros H. inversion H; subst. auto.
    + unfold bind. destruct (input _ w) as [[answer|e] w1] eqn:E;
        apply input_effect in E; intros H; inversion H; subst; tauto.
Qed.

(** ** Dictionaries and files *)

Lemma dict_get_set_same (k : string) (v : pyfloat) (d : dict) :
  Dict.get k (Dict.set k v d) = Some v.
Proof.
  induction d as [|[k' v'] d IH]; simpl.
  - rewrite String.eqb_refl. reflexivity.
  - destruct (String.eqb k k') eqn:E; simpl; rewrite E; [reflexivity | exact IH].
Qed.

Lemma dict_get_set_other (k k0 : string) (v : pyfloat) (d : dict) :
  k0 <> k -> Dict.get k0 (Dict.set k v d) = Dict.get k0 d.
Proof.
  intros Hne. induction d as [|[k' v'] d IH]; simpl.
  - destruct (String.eqb_spec k0 k); [contradiction | reflexivity].
  - destruct (String.eqb_spec k k') as [->|Hk]; simpl.
    + destruct (String.eqb_spec k0 k'); [contradiction | reflexivity].
    + destruct (String.eqb k0 k'); [reflexivity | exact IH].
Qed.

(** Setting a key that is absent keeps every entry that is present. *)
Lemma dict_set_absent_keeps (k k0 : string) (v v0 : pyfloat) (d : dict) :
  Dict.get k d = None -> Dict.get k0 d = Some v0 ->
  Dict.get k0 (Dict.set k v d) = Some v0.
Proof.
  intros Hk Hk0. rewrite dict_get_set_other; [exact Hk0|].
  intros ->. congruence.
Qed.

Lemma fs_read_write_same (name content : string) (fs : list (string * string)) :
  FS.read name (FS.write name content fs) = Some content.
Proof.
  induction fs as [|[n c] fs IH]; simpl.
  - rewrite String.eqb_refl. reflexivity.
  - destruct (String.eqb name n) eqn:E; simpl; rewrite E; [reflexivity | exact IH].
Qed.

Lemma fs_read_write_other (name name0 content : string)
    (fs : list (string * string)) :
  name0 <> name -> FS.read name0 (FS.write name content fs) = FS.read name0 fs.
Proof.
  intros Hne. induction fs as [|[n c] fs IH]; simpl.
  - destruct (String.eqb_spec name0 name); [contradiction | reflexivity].
  - destruct (String.eqb_spec name n) as [->|Hn]; simpl.
    + destruct (String.eqb_spec name0 n); [contradiction | reflexivity].
    + destruct (String.eqb name0 n); [reflexivity | exact IH].
Qed.

Lemma fs_exists_write (name content : string) (fs : list (string * string)) :
  FS.exists_ name (FS.write name content fs) = true.
Proof. unfold FS.exists_. rewrite fs_read_write_same. reflexivity. Qed.

(** ** The store *)

Section StoreProperties.

Variable json_dumps : dict -> string.
Variable json_loads : string -> option dict.

(** C8: for every file name, [load_data] on a file that does not exist
    returns the empty mapping, raises nothing and leaves the world as it
    was; and whenever [load_data] raises, the file exists and the error is
    the parse failure. *)
Theorem load_data_missing (filename : string) (w : World) :
  (FS.exists_ filename (files w) = false ->
   load_data json_loads filename w = (Ok [], w))
  /\ (forall e w', load_data json_loads filename w = (Raise e, w') ->
      FS.exists_ filename (files w) = true /\ e = JSONDecodeError).
Proof.
  unfold load_data, FS.exists_. split.
  - intros H. destruct (FS.read filename (files w)); [discriminate | reflexivity].
  - intros e w'. destruct (FS.read filename (files w)) as [content|].
    + destruct (json_loads content); intros H; inversion H. auto.
    + discriminate.
Qed.

End StoreProperties.

Lemma load_data_missing_witness :
  load_data (Json.loads PyText.float_of_str) "recipes.json"
    (mkWorld ["view"] [] [("ingredients.json", "{}")])
  = (Ok [], mkWorld ["view"] [] [("ingredients.json", "{}")]).
Proof.
  apply (load_data_missing (Json.loads PyText.float_of_str) "recipes.json"
           (mkWorld ["view"] [] [("ingredients.json", "{}")])).
  reflexivity.
Defined.

(** ** The manager *)

Section ManagerProperties.

Variable float_of_str : string -> option pyfloat.
Variable fmt2f : pyfloat -> string.
Variable json_dumps : dict -> string.

(** C5: [get_cost_per_gram] first resolves the name against the keys of
    the ingredient store.  When the resolved name is in the store, it
    returns the stored cost; the manager and the files are as they were.
    When it is absent and the user gives a cost, the cost is positive, the
    entry is inserted into the ingredient store of the manager, the whole
    ingredient store is written to the ingredient file, and the cost is
    returned. *)
Theorem get_cost_per_gram_spec (name : string) (self : RecipeManager)
    (w : World) (resolved : string) (w1 : World) :
  suggest_name name (Dict.keys (ingredients_db self)) w = (Ok resolved, w1) ->
  (forall cost, Dict.get resolved (ingredients_db self) = Some cost ->
     get_cost_per_gram float_of_str json_dumps name self w = (Ok (cost, self), w1)
     /\ files w1 = files w)
  /\ (Dict.get resolved (ingredients_db self) = None ->
      forall cost w2,
        get_positive_float float_of_str (cost_prompt resolved) w1 = (Ok cost, w2) ->
        let db := Dict.set resolved cost (ingredients_db self) in
        let fs := FS.write INGREDIENTS_FILE (json_dumps db) (files w) in
        Float.gt0 cost = true
        /\ get_cost_per_gram float_of_str json_dumps name self w
           = (Ok (cost, mkManager db (recipes_db self)),
              mkWorld (stdin w2) (stdout w2) fs)
        /\ Dict.get resolved db = Some cost
        /\ FS.read INGREDIENTS_FILE fs = Some (json_dumps db)).
Proof.
  intros Hs. pose proof (suggest_name_effect _ _ _ _ _ Hs) as [Hf1 _].
  split.
  - intros cost Hg. split; [|exact Hf1].
    unfold get_cost_per_gram, bind. rewrite Hs, Hg. reflexivity.
  - intros Hg cost w2 Hp db fs.
    pose proof (get_positive_float_effect _ _ _ _ _ Hp) as [Hf2 [_ [Hpos _]]].
    split; [exact Hpos|]. split; [|split].
    + unfold get_cost_per_gram, bind. rewrite Hs, Hg.
      rewrite Hp.
      unfold save_data, ret. simpl. subst fs db. rewrite Hf2, Hf1. reflexivity.
    + apply dict_get_set_same.
    + apply fs_read_write_same.
Qed.

End ManagerProperties.

Lemma get_cost_per_gram_spec_witness :
  get_cost_per_gram PyText.float_of_str (Json.dumps PyText.repr) "eggs"
    (mkManager [("Flour", Fin (1 # 100))] [])
    (mkWorld ["zero"; "0"; "0.05"] [] [])
  = (Ok (Fin (1 # 20),
         mkManager [("Flour", Fin (1 # 100)); ("eggs", Fin (1 # 20))] []),
     mkWorld []
       ["Enter cost per gram for eggs: ";
        "Invalid input. Please enter a number.";
        "Enter cost per gram for eggs: ";
        "Please enter a positive number.";
        "Enter cost per gram for eggs: "]
       [("ingredients.json",
         Json.dumps PyText.repr
           [("Flour", Fin (1 # 100)); ("eggs", Fin (1 # 20))])]).
Proof.
  pose proof (get_cost_per_gram_spec PyText.float_of_str (Json.dumps PyText.repr)
                "eggs" (mkManager [("Flour", Fin (1 # 100))] [])
                (mkWorld ["zero"; "0"; "0.05"] [] [])
                "eggs" (mkWorld ["zero"; "0"; "0.05"] [] [])
                eq_refl) as [_ Habsent].
  specialize (Habsent eq_refl (Fin (1 # 20))
                (mkWorld []
                   ["Enter cost per gram for eggs: ";
                    "Invalid input. Please enter a number.";
                    "Enter cost per gram for eggs: ";
                    "Please enter a positive number.";
                    "Enter cost per gram for eggs: "] [])
                eq_refl).
  exact (proj1 (proj2 Habsent)).
Defined.

(** ** Sessions *)

Section SessionProperties.

Variable float_of_str : string -> option pyfloat.
Variable fmt2f : pyfloat -> string.
Variable json_dumps : dict -> string.

Lemma keeps_refl (d : dict) : keeps d d.
Proof. intros k v H. exact H. Qed.

Lemma keeps_trans (d1 d2 d3 : dict) : keeps d1 d2 -> keeps d2 d3 -> keeps d1 d3.
Proof. intros H1 H2 k v H. apply H2, H1, H. Qed.

Lemma get_cost_per_gram_effect (name : string) (self : RecipeManager)
    (w : World) (r : result (pyfloat * RecipeManager)) (w' : World) :
  get_cost_per_gram float_of_str json_dumps name self w = (r, w') ->
  (List.length (stdin w') <= List.length (stdin w))%nat
  /\ match r with
     | Ok (_, self') =>
         recipes_db self' = recipes_db self
         /\ keeps (ingredients_db self) (ingredients_db self')
     | Raise e => e = EOFError
     end.
Proof.
  unfold get_cost_per_gram. intros H. bind_cases H resolved w1 E.
  - apply suggest_name_effect in E. destruct E as [_ [Hl _]].
    destruct (Dict.get resolved (ingredients_db self)) as [cost|] eqn:G.
    + inversion H; subst. split; [exact Hl|]. split; [reflexivity | apply keeps_refl].
    + bind_cases H cost w2 E.
      * apply get_positive_float_effect in E. destruct E as [_ [Hl2 _]].
        unfold bind, save_data, ret in H. inversion H; subst. simpl.
        split; [lia|]. split; [reflexivity|].
        intros k v Hk. apply dict_set_absent_keeps; assumption.
      * apply get_positive_float_effect in E. destruct E as [_ [Hl2 He]].
        inversion H; subst. split; [lia | reflexivity].
  - apply suggest_name_effect in E. destruct E as [_ [Hl He]].
    inversion H; subst. split; [exact Hl | reflexivity].
Qed.

(** The loop of [create_recipe]: with more fuel than lines to read it does
    not reach its bound; it only adds ingredients to the recipe, only adds
    entries to the ingredient store and leaves the recipe store alone. *)
Lemma add_ingredients_effect (fuel : nat) :
  forall (self : RecipeManager) (recipe : Recipe.t) (w : World)
         (r : result (Recipe.t * RecipeManager)) (w' : World),
    (List.length (stdin w) < fuel)%nat ->
    add_ingredients float_of_str json_dumps fuel self recipe w = (r, w') ->
    match r with
    | Ok (recipe', self') =>
        Recipe.name recipe' = Recipe.name recipe
        /\ Recipe.portions recipe' = Recipe.portions recipe
        /\ recipes_db self' = recipes_db self
        /\ keeps (ingredients_db self) (ingredients_db self')
    | Raise e => e = EOFError
    end.
Proof.
  induction fuel as [|fuel IH]; intros self recipe w r w' Hfuel H.
  - lia.
  - cbn [add_ingredients] in H.
    bind_cases H typed w1 E1;
      apply get_non_empty_string_effect in E1; destruct E1 as [_ [Hl1 He1]];
      [destruct He1 as [_ Hlt] | inversion H; subst; reflexivity].
    bind_cases H ing_name w2 E2;
      apply suggest_name_effect in E2; destruct E2 as [_ [Hl2 He2]];
      [| inversion H; subst; reflexivity].
    bind_cases H weight w3 E3;
      apply get_positive_float_effect in E3; destruct E3 as [_ [Hl3 He3]];
      [| inversion H; subst; reflexivity].
    bind_cases H cs w4 E4;
      apply get_cost_per_gram_effect in E4; destruct E4 as [Hl4 He4];
      [| inversion H; subst; reflexivity].
    destruct cs as [cost_per_g self1]. destruct He4 as [Hr Hk].
    bind_cases H cont w5 E5;
      apply input_effect in E5; destruct E5 as [_ [Hl5 He5]];
      [| inversion H; subst; reflexivity].
    destruct (String.eqb (Str.lower cont) "y").
    + apply IH in H; [|lia]. destruct r as [[recipe' self']|e]; [|exact H].
      destruct H as [Hn [Hp [Hr' Hk']]]. simpl in Hn, Hp.
      repeat split; try congruence. eapply keeps_trans; eassumption.
    + inversion H; subst. simpl. repeat split; assumption.
Qed.

Lemma new_recipe_effect (w : World) (r : result Recipe.t) (w' : World) :
  new_recipe float_of_str w = (r, w') ->
  (List.length (stdin w') <= List.length (stdin w))%nat
  /\ r <> Raise Diverged.
Proof.
  unfold new_recipe. intros H.
  bind_cases H name w1 E1;
    apply get_non_empty_string_effect in E1; destruct E1 as [_ [Hl1 He1]];
    [| inversion H; subst; split; [exact Hl1 | discriminate]].
  bind_cases H value w2 E2;
    apply get_positive_float_effect in E2; destruct E2 as [_ [Hl2 He2]];
    [| inversion H; subst; split; [lia | discriminate]].
  unfold bind, lift, ret in H.
  destruct value; simpl in H; inversion H; subst;
    (split; [lia | discriminate]).
Qed.

(** The portion count of a new recipe is never negative. *)
Lemma new_recipe_portions (w : World) (r : Recipe.t) (w' : World) :
  new_recipe float_of_str w = (Ok r, w') -> 0 <= Recipe.portions r.
Proof.
  unfold new_recipe. intros H.
  bind_cases H name w1 E1; [|discriminate].
  bind_cases H value w2 E2; [|discriminate].
  apply get_positive_float_effect in E2. destruct E2 as [_ [_ [Hpos _]]].
  unfold bind, lift, ret in H.
  destruct value as [q| | |]; simpl in H; inversion H; subst. simpl.
  simpl in Hpos. apply Z.ltb_lt in Hpos.
  apply Z.quot_pos; lia.
Qed.

(** [create_recipe] returns or raises a Python exception on every session:
    the bound of its loop is never the reason why it stops. *)
Lemma create_recipe_total (self : RecipeManager) (w : World) :
  fst (create_recipe float_of_str fmt2f json_dumps self w) <> Raise Diverged.
Proof.
  unfold create_recipe.
  destruct (bind _ _ w) as [r w'] eqn:H. simpl.
  bind_cases H recipe0 w1 E.
  - apply new_recipe_effect in E. destruct E as [Hl _].
    bind_cases H rs w2 E.
    + destruct rs as [recipe self1].
      unfold store_recipe, bind, lift, print, save_data, ret in H.
      destruct (Recipe.cost_per_portion recipe) as [cost|e] eqn:Ec.
      * inversion H; subst. discriminate.
      * unfold Recipe.cost_per_portion in Ec.
        destruct (Recipe.portions recipe =? 0); inversion Ec; subst.
        inversion H; subst. discriminate.
    + apply add_ingredients_effect in E; [|lia].
      inversion H; subst. discriminate.
  - apply new_recipe_effect in E. destruct E as [_ Hd].
    inversion H; subst. intros Hr. apply Hd. inversion Hr. reflexivity.
Qed.

(** The cents of [round2]: the multiple of 1/100 nearest to the value. *)
Lemma round_half_even_nearest (q : Q) :
  2 * Z.abs (Qnum q * 100 - Float.round_half_even q * Zpos (Qden q))
  <= Zpos (Qden q).
Proof.
  unfold Float.round_half_even.
  set (n := Qnum q * 100). set (d := Zpos (Qden q)).
  assert (Hd : 0 < d) by (subst d; lia).
  pose proof (Z.div_mod n d ltac:(lia)) as Hdm.
  pose proof (Z.mod_pos_bound n d Hd) as Hm.
  destruct (Z.ltb_spec (2 * (n mod d)) d) as [H1|H1].
  - nia.
  - destruct (Z.ltb_spec d (2 * (n mod d))) as [H2|H2].
    + nia.
    + destruct (Z.even (n / d)); nia.
Qed.

Lemma store_recipe_spec (self : RecipeManager) (recipe : Recipe.t)
    (w : World) (self' : RecipeManager) (w' : World) :
  store_recipe fmt2f json_dumps self recipe w = (Ok (tt, self'), w') ->
  exists cost,
    Recipe.cost_per_portion recipe = Ok cost
    /\ ingredients_db self' = ingredients_db self
    /\ recipes_db self'
       = Dict.set (Recipe.name recipe) (Float.round2 cost) (recipes_db self)
    /\ stdin w' = stdin w
    /\ stdout w' = stdout w ++ [cost_line fmt2f (Recipe.name recipe) cost]
    /\ files w'
       = FS.write RECIPES_FILE (json_dumps (recipes_db self')) (files w).
Proof.
  unfold store_recipe, bind, lift, print, save_data, ret.
  destruct (Recipe.cost_per_portion recipe) as [cost|e]; [|discriminate].
  intros H. inversion H; subst. simpl. exists cost. repeat split.
Qed.

(** C6: when a [create_recipe] session completes, a recipe was built from
    the session and its cost per portion was computed; the recipe store of
    the manager is the former one with that cost, rounded to the nearest
    multiple of 1/100, set under the name of the recipe: that entry is there,
    whatever was there under that name before, every entry under another
    name is as it was; and the recipe file holds the whole recipe store. *)
Theorem create_recipe_stores (self : RecipeManager) (w : World)
    (self' : RecipeManager) (w' : World) :
  create_recipe float_of_str fmt2f json_dumps self w = (Ok (tt, self'), w') ->
  exists (recipe0 recipe : Recipe.t) (self1 : RecipeManager) (w0 w1 : World)
         (cost : pyfloat),
    new_recipe float_of_str w = (Ok recipe0, w0)
    /\ add_ingredients float_of_str json_dumps (S (List.length (stdin w)))
         self recipe0 w0 = (Ok (recipe, self1), w1)
    /\ Recipe.name recipe = Recipe.name recipe0
    /\ Recipe.cost_per_portion recipe = Ok cost
    /\ recipes_db self'
       = Dict.set (Recipe.name recipe) (Float.round2 cost) (recipes_db self)
    /\ Dict.get (Recipe.name recipe) (recipes_db self') = Some (Float.round2 cost)
    /\ (forall k, k <> Recipe.name recipe ->
          Dict.get k (recipes_db self') = Dict.get k (recipes_db self))
    /\ (forall q, cost = Fin q ->
          exists cents,
            Float.round2 cost = Fin (cents # 100)
            /\ 2 * Z.abs (Qnum q * 100 - cents * Zpos (Qden q)) <= Zpos (Qden q))
    /\ stdout w' = stdout w1 ++ [cost_line fmt2f (Recipe.name recipe) cost]
    /\ FS.read RECIPES_FILE (files w') = Some (json_dumps (recipes_db self')).
Proof.
  unfold create_recipe. intros H.
  bind_cases H recipe0 w0 E0; [|discriminate].
  bind_cases H rs w1 E1; [|discriminate].
  destruct rs as [recipe self1].
  pose proof (new_recipe_effect _ _ _ E0) as [Hl _].
  pose proof E1 as E1'.
  apply add_ingredients_effect in E1'; [|lia].
  destruct E1' as [Hn [_ [Hr _]]].
  apply store_recipe_spec in H.
  destruct H as [cost [Hc [_ [Hdb [_ [Hout Hfs]]]]]].
  exists recipe0, recipe, self1, w0, w1, cost.
  rewrite Hr in Hdb.
  repeat split; try assumption.
  - rewrite Hdb. apply dict_get_set_same.
  - intros k Hk. rewrite Hdb. apply dict_get_set_other. exact Hk.
  - intros q ->. exists (Float.round_half_even q). split; [reflexivity|].
    apply round_half_even_nearest.
  - rewrite Hfs. apply fs_read_write_same.
Qed.

Lemma run_operation_keeps (o : operation) (self : RecipeManager) (w : World)
    (self' : RecipeManager) (w' : World) :
  run_operation float_of_str fmt2f json_dumps o self w = (Ok self', w') ->
  keeps (ingredients_db self) (ingredients_db self').
Proof.
  destruct o as [name| |]; unfold run_operation; intros H.
  - bind_cases H r w1 E; [|discriminate].
    apply get_cost_per_gram_effect in E. destruct E as [_ E].
    destruct r as [cost self1]. inversion H; subst. apply E.
  - bind_cases H r w1 E; [|discriminate].
    destruct r as [[] self1]. inversion H; subst. simpl.
    unfold create_recipe in E.
    bind_cases E recipe0 w0 E0; [|discriminate].
    bind_cases E rs w2 E1; [|discriminate].
    destruct rs as [recipe self2].
    pose proof (new_recipe_effect _ _ _ E0) as [Hl _].
    apply add_ingredients_effect in E1; [|lia].
    destruct E1 as [_ [_ [_ Hk]]].
    apply store_recipe_spec in E. destruct E as [cost [_ [Hi _]]].
    rewrite Hi. exact Hk.
  - bind_cases H r w1 E; [|discriminate].
    destruct r as [[] self1]. inversion H; subst. simpl.
    unfold view_recipe_cost in E.
    destruct (Dict.is_empty (recipes_db self)).
    + unfold bind, print, ret in E. inversion E; subst. apply keeps_refl.
    + bind_cases E u w2 E2; [|discriminate].
      bind_cases E u' w3 E3; [|discriminate].
      inversion E; subst. apply keeps_refl.
Qed.

(** C9: over every sequence of [get_cost_per_gram], [create_recipe] and
    [view_recipe_cost] on one manager, an entry of the ingredient store
    stays: the name is still there and its cost is the same. *)
Theorem ingredient_entries_stay (os : list operation) :
  forall (self : RecipeManager) (w : World) (self' : RecipeManager) (w' : World),
    run_operations float_of_str fmt2f json_dumps os self w = (Ok self', w') ->
    forall name cost,
      Dict.get name (ingredients_db self) = Some cost ->
      Dict.get name (ingredients_db self') = Some cost.
Proof.
  induction os as [|o os IH]; intros self w self' w' H name cost Hg.
  - inversion H; subst. exact Hg.
  - cbn [run_operations] in H.
    bind_cases H self1 w1 E; [|discriminate].
    apply run_operation_keeps in E.
    eapply IH; [exact H|]. apply E. exact Hg.
Qed.

End SessionProperties.

Lemma create_recipe_stores_witness :
  exists (self' : RecipeManager) (w' : World),
    create_recipe PyText.float_of_str PyText.fmt2f (Json.dumps PyText.repr)
      (mkManager [("Flour", Fin (1 # 100))] [("Pancakes", Fin 9); ("Soup", Fin 2)])
      (mkWorld ["Pancakes"; "4"; "flour"; "2000"; "n"] [] [])
    = (Ok (tt, self'), w')
    /\ exists (recipe : Recipe.t) (cost : pyfloat),
         Recipe.cost_per_portion recipe = Ok cost
         /\ Dict.get (Recipe.name recipe) (recipes_db self')
            = Some (Float.round2 cost)
         /\ FS.read RECIPES_FILE (files w')
            = Some (Json.dumps PyText.repr (recipes_db self')).
Proof.
  eexists. eexists. split.
  - vm_compute. reflexivity.
  - destruct (create_recipe_stores PyText.float_of_str PyText.fmt2f
                (Json.dumps PyText.repr)
                (mkManager [("Flour", Fin (1 # 100))]
                   [("Pancakes", Fin 9); ("Soup", Fin 2)])
                (mkWorld ["Pancakes"; "4"; "flour"; "2000"; "n"] [] [])
                _ _ eq_refl)
      as [recipe0 [recipe [self1 [w0 [w1 [cost H]]]]]].
    exists recipe, cost. tauto.
Defined.

Lemma ingredient_entries_stay_witness :
  exists (self' : RecipeManager) (w' : World),
    run_operations PyText.float_of_str PyText.fmt2f (Json.dumps PyText.repr)
      [GetCostPerGram "Eggs"; CreateRecipe; ViewRecipeCost]
      (mkManager [("Flour", Fin (1 # 100))] [])
      (mkWorld ["0.05"; "Omelette"; "2.9"; "egg"; "Y"; "100"; "y";
                "Butter"; "10"; "0.02"; "n"] [] [])
    = (Ok self', w')
    /\ Dict.get "Flour" (ingredients_db self') = Some (Fin (1 # 100)).
Proof.
  eexists. eexists. split.
  - vm_compute. reflexivity.
  - eapply (ingredient_entries_stay PyText.float_of_str PyText.fmt2f
              (Json.dumps PyText.repr)
              [GetCostPerGram "Eggs"; CreateRecipe; ViewRecipeCost]
              (mkManager [("Flour", Fin (1 # 100))] [])
              (mkWorld ["0.05"; "Omelette"; "2.9"; "egg"; "Y"; "100"; "y";
                        "Butter"; "10"; "0.02"; "n"] [] [])).
    + vm_compute. reflexivity.
    + reflexivity.
Defined.

(** ** The portion count *)

(** C1 fails on the session in which [0.5] is entered as the number of
    portions: [get_positive_float] accepts the value, which is positive, and
    [int] truncates it to 0.  The recipe is built with 0 portions and
    [create_recipe] stops on the division by zero (after the new ingredient
    has been written to the ingredient file). *)
Theorem portions_truncated_to_zero :
  let w := mkWorld ["Pancakes"; "0.5"; "Flour"; "200"; "0.05"; "n"] [] [] in
  PyText.float_of_str "0.5" = Some (Fin (1 # 2))
  /\ Float.gt0 (Fin (1 # 2)) = true
  /\ int_of_float (Fin (1 # 2)) = Ok 0
  /\ fst (new_recipe PyText.float_of_str w) = Ok (Recipe.init "Pancakes" 0)
  /\ fst (create_recipe PyText.float_of_str PyText.fmt2f (Json.dumps PyText.repr)
            (mkManager [] []) w)
     = Raise ZeroDivisionError.
Proof.
  repeat split; vm_compute; reflexivity.
Qed.

(** ** The JSON documents of a store are read back *)

Lemma append_assoc (a b c : string) : ((a ++ b) ++ c = a ++ (b ++ c))%string.
Proof. induction a as [|x a IH]; simpl; [reflexivity | rewrite IH; reflexivity]. Qed.

Lemma append_nil_r (a : string) : (a ++ "")%string = a.
Proof. induction a as [|x a IH]; simpl; [reflexivity | rewrite IH; reflexivity]. Qed.

(** Reading one escaped character gives the character back. *)
Lemma scan_string_escape_char (c : ascii) (tail : string) :
  Json.scan_string (Json.escape_char c ++ tail)
  = Json.cons_char c (Json.scan_string tail).
Proof.
  destruct c as [[] [] [] [] [] [] [] []]; reflexivity.
Qed.

Lemma scan_string_escape (k rest : string) :
  Json.scan_string (Json.escape k ++ String Json.DQUOTE rest) = Some (k, rest).
Proof.
  induction k as [|c k IH]; simpl.
  - reflexivity.
  - rewrite append_assoc, scan_string_escape_char, IH. reflexivity.
Qed.

(** The character that follows a value ends every group of the number
    pattern. *)
Lemma closes_inv (rest : string) :
  Json.closes rest ->
  exists c r,
    rest = String c r
    /\ Json.is_digit c = false
    /\ Json.is_code 46 c = false
    /\ (Json.is_code 101 c || Json.is_code 69 c) = false
    /\ (Json.is_code 45 c || Json.is_code 43 c) = false.
Proof.
  destruct rest as [|c r]; simpl; [contradiction|].
  intros H. exists c, r. split; [reflexivity|].
  unfold Json.is_digit, Json.is_code in *.
  destruct H as [H|H]; apply N.eqb_eq in H; rewrite H; repeat split.
Qed.

Lemma take_digits_app (rest : string) (Hc : Json.closes rest) :
  forall s ds r,
    Json.take_digits s = (ds, r) ->
    Json.take_digits (s ++ rest) = (ds, (r ++ rest)%string).
Proof.
  destruct (closes_inv rest Hc) as [c0 [r0 [-> [Hd _]]]].
  induction s as [|c s IH]; intros ds r H; simpl in *.
  - inversion H; subst. rewrite Hd. reflexivity.
  - destruct (Json.is_digit c).
    + destruct (Json.take_digits s) as [ds' r'] eqn:E.
      inversion H; subst. rewrite (IH ds' r eq_refl). reflexivity.
    + inversion H; subst. reflexivity.
Qed.

Lemma take_digits_text (s : string) :
  forall ds r, Json.take_digits s = (ds, r) -> s = (ds ++ r)%string.
Proof.
  induction s as [|c s IH]; intros ds r H; simpl in H.
  - inversion H; reflexivity.
  - destruct (Json.is_digit c).
    + destruct (Json.take_digits s) as [ds' r'] eqn:E.
      inversion H; subst. simpl. rewrite (IH ds' r eq_refl) at 1. reflexivity.
    + inversion H; reflexivity.
Qed.

Lemma match_int_app (rest : string) (Hc : Json.closes rest) (s i r : string) :
  Json.match_int s = Some (i, r) ->
  Json.match_int (s ++ rest) = Some (i, (r ++ rest)%string).
Proof.
  assert (Hd : forall sgn s1,
             match s1 with
             | String c s2 =>
                 if Json.is_code 48 c
                 then Some ((sgn ++ String c EmptyString)%string, s2)
                 else if Json.is_digit c
                      then let '(ds, r0) := Json.take_digits s2 in
                           Some ((sgn ++ String c ds)%string, r0)
                      else None
             | EmptyString => None
             end = Some (i, r) ->
             match (s1 ++ rest)%string with
             | String c s2 =>
                 if Json.is_code 48 c
                 then Some ((sgn ++ String c EmptyString)%string, s2)
                 else if Json.is_digit c
                      then let '(ds, r0) := Json.take_digits s2 in
                           Some ((sgn ++ String c ds)%string, r0)
                      else None
             | EmptyString => None
             end = Some (i, (r ++ rest)%string)).
  { intros sgn [|c s2] H; [discriminate|]. simpl.
    destruct (Json.is_code 48 c).
    - inversion H; subst. reflexivity.
    - destruct (Json.is_digit c); [|discriminate].
      destruct (Json.take_digits s2) as [ds r0] eqn:E.
      rewrite (take_digits_app rest Hc _ _ _ E). inversion H; subst. reflexivity. }
  unfold Json.match_int. destruct s as [|c s'].
  - discriminate.
  - simpl. destruct (Json.is_code 45 c).
    + apply Hd.
    + intros H. exact (Hd EmptyString (String c s') H).
Qed.

Lemma match_int_text (s i r : string) :
  Json.match_int s = Some (i, r) -> s = (i ++ r)%string.
Proof.
  assert (Hd : forall sgn s1,
             match s1 with
             | String c s2 =>
                 if Json.is_code 48 c
                 then Some ((sgn ++ String c EmptyString)%string, s2)
                 else if Json.is_digit c
                      then let '(ds, r0) := Json.take_digits s2 in
                           Some ((sgn ++ String c ds)%string, r0)
                      else None
             | EmptyString => None
             end = Some (i, r) ->
             (sgn ++ s1 = i ++ r)%string).
  { intros sgn [|c s2] H; [discriminate|].
    destruct (Json.is_code 48 c).
    - inversion H; subst. rewrite append_assoc. reflexivity.
    - destruct (Json.is_digit c); [|discriminate].
      destruct (Json.take_digits s2) as [ds r0] eqn:E.
      inversion H; subst. rewrite append_assoc. simpl.
      rewrite <- (take_digits_text _ _ _ E). reflexivity. }
  unfold Json.match_int. destruct s as [|c s'].
  - discriminate.
  - destruct (Json.is_code 45 c).
    + intros H. apply Hd in H. exact H.
    + intros H. exact (Hd EmptyString (String c s') H).
Qed.

Lemma match_frac_app (rest : string) (Hc : Json.closes rest) (s f r : string) :
  Json.match_frac s = (f, r) ->
  Json.match_frac (s ++ rest) = (f, (r ++ rest)%string).
Proof.
  destruct (closes_inv rest Hc) as [c0 [r0 [Hrest [_ [Hdot _]]]]].
  unfold Json.match_frac. destruct s as [|c s']; simpl.
  - intros H. inversion H; subst. simpl. rewrite Hdot. reflexivity.
  - destruct (Json.is_code 46 c).
    + destruct (Json.take_digits s') as [ds r'] eqn:E.
      rewrite (take_digits_app rest Hc _ _ _ E).
      destruct (Json.is_empty ds); intros H; inversion H; subst; reflexivity.
    + intros H. inversion H; subst. reflexivity.
Qed.

Lemma match_frac_text (s f r : string) :
  Json.match_frac s = (f, r) -> s = (f ++ r)%string.
Proof.
  unfold Json.match_frac. destruct s as [|c s'].
  - intros H. inversion H; reflexivity.
  - destruct (Json.is_code 46 c).
    + destruct (Json.take_digits s') as [ds r'] eqn:E.
      destruct (Json.is_empty ds); intros H; inversion H; subst.
      * reflexivity.
      * simpl. rewrite <- (take_digits_text _ _ _ E). reflexivity.
    + intros H. inversion H; reflexivity.
Qed.

Lemma match_exp_app (rest : string) (Hc : Json.closes rest) (s e r : string) :
  Json.match_exp s = (e, r) ->
  Json.match_exp (s ++ rest) = (e, (r ++ rest)%string).
Proof.
  destruct (closes_inv rest Hc) as [c0 [r0 [Hrest [Hdig [_ [Hexp Hsign]]]]]].
  unfold Json.match_exp. destruct s as [|c s']; simpl.
  - intros H. inversion H; subst. simpl. rewrite Hexp. reflexivity.
  - destruct (Json.is_code 101 c || Json.is_code 69 c).
    + destruct s' as [|d s'']; simpl.
      * intros H. inversion H; subst. simpl. rewrite Hsign. simpl.
        rewrite Hdig. reflexivity.
      * destruct (Json.is_code 45 d || Json.is_code 43 d).
        -- destruct (Json.take_digits s'') as [ds r'] eqn:E.
           rewrite (take_digits_app rest Hc _ _ _ E).
           destruct (Json.is_empty ds); intros H; inversion H; subst; reflexivity.
        -- change (String d (s'' ++ rest)%string) with (String d s'' ++ rest)%string.
           destruct (Json.take_digits (String d s'')) as [ds r'] eqn:E.
           rewrite (take_digits_app rest Hc _ _ _ E).
           destruct (Json.is_empty ds); intros H; inversion H; subst; reflexivity.
    + intros H. inversion H; subst. reflexivity.
Qed.

Lemma match_exp_text (s e r : string) :
  Json.match_exp s = (e, r) -> s = (e ++ r)%string.
Proof.
  unfold Json.match_exp. destruct s as [|c s'].
  - intros H. inversion H; reflexivity.
  - destruct (Json.is_code 101 c || Json.is_code 69 c).
    + destruct s' as [|d s''].
      * simpl. intros H. inversion H; reflexivity.
      * destruct (Json.is_code 45 d || Json.is_code 43 d).
        -- destruct (Json.take_digits s'') as [ds r'] eqn:E.
           destruct (Json.is_empty ds); intros H; inversion H; subst.
           ++ reflexivity.
           ++ simpl. rewrite <- (take_digits_text _ _ _ E). reflexivity.
        -- destruct (Json.take_digits (String d s'')) as [ds r'] eqn:E.
           destruct (Json.is_empty ds); intros H; inversion H; subst.
           ++ reflexivity.
           ++ simpl. rewrite <- (take_digits_text _ _ _ E). reflexivity.
    + intros H. inversion H; reflexivity.
Qed.

Lemma length_append (a b : string) :
  String.length (a ++ b) = (String.length a + String.length b)%nat.
Proof. induction a as [|x a IH]; simpl; [reflexivity | rewrite IH; reflexivity]. Qed.

Lemma dict_set_new (k : string) (v : pyfloat) (d : dict) :
  ~ In k (Dict.keys d) -> Dict.set k v d = d ++ [(k, v)].
Proof.
  induction d as [|[k' v'] d IH]; simpl; intros H.
  - reflexivity.
  - destruct (String.eqb_spec k k') as [->|Hne].
    + exfalso. apply H. left. reflexivity.
    + rewrite IH; [reflexivity|]. intros Hin. apply H. right. exact Hin.
Qed.

Section CodecProperties.

Variable float_repr : pyfloat -> string.
Variable float_of_str : string -> option pyfloat.

(** Building the dict from pairs of distinct keys keeps the pairs. *)
Lemma dict_of_pairs_distinct (d : dict) :
  forall acc : dict,
    NoDup (Dict.keys (acc ++ d)) ->
    fold_left (fun d0 kv => Dict.set (fst kv) (snd kv) d0) d acc = acc ++ d.
Proof.
  induction d as [|[k v] d IH]; intros acc H; simpl.
  - rewrite app_nil_r. reflexivity.
  - rewrite dict_set_new.
    + rewrite IH; rewrite <- app_assoc; [reflexivity | exact H].
    + unfold Dict.keys in H. rewrite map_app in H. simpl in H.
      apply NoDup_remove_2 in H. intros Hin. apply H.
      apply in_or_app. left. exact Hin.
Qed.

Lemma float_token_not_ws (t rest : string) :
  Json.float_token t = true ->
  Json.skip_ws (t ++ rest) = (t ++ rest)%string.
Proof.
  destruct t as [|c t]; [discriminate|].
  destruct c as [[] [] [] [] [] [] [] []]; intros H;
    try reflexivity; discriminate H.
Qed.

(** The text of the items, from the first key on. *)
Lemma items_cons_text (first : bool) (k : string) (v : pyfloat) (d : dict)
    (tl : string) :
  (Json.items float_repr first ((k, v) :: d) ++ tl)%string
  = ((if first then "" else ",")
     ++ String Json.NEWLINE (String " " (String " " (String Json.DQUOTE
          (Json.escape k
           ++ String Json.DQUOTE
                (String ":" (String " "
                   (Json.floatstr float_repr v
                    ++ (Json.items float_repr false d ++ tl)))))))))%string.
Proof.
  unfold Json.items at 1; fold (Json.items float_repr).
  unfold Json.item, Json.encode_string, Json.newline_indent. simpl fst. simpl snd.
  destruct first; simpl; repeat rewrite append_assoc; simpl; reflexivity.
Qed.

Lemma items_closes (d : dict) :
  Json.closes (Json.items float_repr false d ++ String Json.NEWLINE "}").
Proof.
  destruct d as [|[k v] d].
  - simpl. right. reflexivity.
  - rewrite items_cons_text. simpl. left. reflexivity.
Qed.

Lemma items_length (d : dict) (tl : string) :
  (List.length d <= String.length (Json.items float_repr false d ++ tl))%nat.
Proof.
  revert tl. induction d as [|[k v] d IH]; intros tl.
  - simpl. lia.
  - rewrite items_cons_text. simpl. rewrite length_append. simpl.
    rewrite length_append. specialize (IH tl). lia.
Qed.

Lemma scan_value_reads_as (v v' : pyfloat) (rest : string) :
  reads_as float_repr float_of_str v v' ->
  Json.closes rest ->
  Json.scan_value float_of_str
    (Json.skip_ws (String " " (Json.floatstr float_repr v ++ rest)))
  = Some (v', rest).
Proof.
  intros Hr Hc. destruct v as [q| | |]; simpl in Hr; try (subst v'; reflexivity).
  destruct Hr as [Ht Hf]. simpl Json.floatstr.
  set (t := float_repr (Fin q)) in *.
  change (Json.skip_ws (String " " (t ++ rest)))
    with (Json.skip_ws (t ++ rest)).
  rewrite (float_token_not_ws t rest Ht).
  unfold Json.float_token in Ht. unfold Json.scan_value.
  destruct (Json.match_int t) as [[i s1]|] eqn:Ei; [|discriminate].
  destruct (Json.match_frac s1) as [f s2] eqn:Ef.
  destruct (Json.match_exp s2) as [e s3] eqn:Ee.
  apply andb_true_iff in Ht. destruct Ht as [Hs3 Hfe].
  destruct s3; [|discriminate].
  rewrite (match_int_app rest Hc _ _ _ Ei).
  rewrite (match_frac_app rest Hc _ _ _ Ef).
  rewrite (match_exp_app rest Hc _ _ _ Ee).
  apply negb_true_iff in Hfe. rewrite Hfe.
  apply match_int_text in Ei. apply match_frac_text in Ef.
  apply match_exp_text in Ee. rewrite append_nil_r in Ee.
  assert (Et : t = (i ++ f ++ e)%string) by congruence.
  rewrite <- Et, Hf. reflexivity.
Qed.

Lemma scan_pairs_reads_as (d : dict) :
  forall (d' : dict) (fuel : nat) (k : string) (v v' : pyfloat)
         (acc : list (string * pyfloat)),
    (List.length d < fuel)%nat ->
    reads_as float_repr float_of_str v v' ->
    store_reads_as float_repr float_of_str d d' ->
    Json.scan_pairs float_of_str fuel
      (Json.escape k
       ++ String Json.DQUOTE
            (String ":" (String " "
               (Json.floatstr float_repr v
                ++ (Json.items float_repr false d ++ String Json.NEWLINE "}")))))
      acc
    = Some (acc ++ (k, v') :: d', EmptyString).
Proof.
  induction d as [|[k1 v1] d IH]; intros d' fuel k v v' acc Hfuel Hv Hd;
    (destruct fuel as [|fuel]; [simpl in Hfuel; lia|]);
    cbn [Json.scan_pairs]; rewrite scan_string_escape;
    change (Json.skip_ws (String ":" ?x)) with (String ":" x);
    cbv beta iota; change (Json.is_code 58 ":") with true; cbv beta iota.
  - inversion Hd; subst.
    rewrite (scan_value_reads_as v v' _ Hv (items_closes [])).
    reflexivity.
  - inversion Hd as [|kv [k1' v1'] l d1' Hhead Hrest]; subst.
    destruct Hhead as [Hk1 [Hv1 _]]. simpl in Hk1, Hv1. subst k1'.
    rewrite (scan_value_reads_as v v' _ Hv
               (items_closes ((k1, v1) :: d))).
    rewrite items_cons_text.
    change ("," ++ ?x)%string with (String "," x).
    change (Json.skip_ws (String "," ?x)) with (String "," x).
    cbv beta iota.
    change (Json.is_code 125 ",") with false.
    change (Json.is_code 44 ",") with true. cbv beta iota.
    change (Json.skip_ws (String Json.NEWLINE (String " " (String " "
              (String Json.DQUOTE ?x)))))
      with (String Json.DQUOTE x).
    cbv beta iota. change (Json.is_code 34 Json.DQUOTE) with true. cbv beta iota.
    change (acc ++ (k, v') :: (k1, v1') :: d1')
      with (acc ++ [(k, v')] ++ (k1, v1') :: d1').
    rewrite app_assoc.
    apply IH; [simpl in Hfuel; lia | exact Hv1 | exact Hrest].
Qed.

Lemma store_reads_as_keys (d d' : dict) :
  store_reads_as float_repr float_of_str d d' -> Dict.keys d' = Dict.keys d.
Proof.
  intros H. induction H as [|kv kv' d d' [Hk _] _ IH]; simpl.
  - reflexivity.
  - rewrite Hk, IH. reflexivity.
Qed.

(** The document of a store is read as the store of the floats that its
    values are read as. *)
Lemma loads_dumps_reads_as (d d' : dict) :
  NoDup (Dict.keys d) ->
  store_reads_as float_repr float_of_str d d' ->
  Json.loads float_of_str (Json.dumps float_repr d) = Some d'.
Proof.
  intros Hnd Hd. pose proof (store_reads_as_keys d d' Hd) as Hkeys.
  destruct Hd as [|[k v] [k' v'] d d' [Hk [Hv _]] Hrest]; [reflexivity|].
  simpl in Hk. subst k'.
  unfold Json.dumps.
  change ("{" ++ ?x)%string with (String "{" x).
  rewrite items_cons_text.
  change ("" ++ ?x)%string with x.
  unfold Json.loads.
  change (Json.skip_ws (String "{" ?x)) with (String "{" x).
  cbv beta iota. change (Json.is_code 123 "{") with true. cbv beta iota.
  change (Json.skip_ws (String Json.NEWLINE (String " " (String " "
            (String Json.DQUOTE ?x)))))
    with (String Json.DQUOTE x).
  cbv beta iota.
  change (Json.is_code 125 Json.DQUOTE) with false.
  change (Json.is_code 34 Json.DQUOTE) with true. cbv beta iota.
  rewrite (scan_pairs_reads_as d d' _ k v v' []); [| | exact Hv | exact Hrest].
  - unfold Json.finish. simpl. unfold Json.dict_of_pairs.
    rewrite (dict_of_pairs_distinct ((k, v') :: d') []); [reflexivity|].
    simpl app. rewrite Hkeys. exact Hnd.
  - rewrite length_append. simpl. rewrite length_append.
    pose proof (items_length d (String Json.NEWLINE "}")). lia.
Qed.

End CodecProperties.

(** ** The round trip of a store *)

Lemma dict_get_in (d : dict) (k : string) (v : pyfloat) :
  NoDup (Dict.keys d) -> In (k, v) d -> Dict.get k d = Some v.
Proof.
  induction d as [|[k' v'] d IH]; simpl; intros Hnd Hin; [contradiction|].
  inversion Hnd as [|? ? Hnot Hnd']; subst.
  destruct Hin as [E|Hin].
  - inversion E; subst. rewrite String.eqb_refl. reflexivity.
  - destruct (String.eqb_spec k k') as [->|Hne].
    + exfalso. apply Hnot. apply (in_map fst) in Hin. exact Hin.
    + apply IH; assumption.
Qed.

Section ReadBack.

Variable float_repr : pyfloat -> string.
Variable float_of_str : string -> option pyfloat.

Lemma store_reads_as_included (d d' : dict) :
  store_reads_as float_repr float_of_str d d' ->
  forall whole : dict,
    (forall k v, In (k, v) d -> Dict.get k whole = Some v) ->
    Dict.included d' whole = true.
Proof.
  intros H. induction H as [|[k v] [k' v'] d d' [Hk [_ He]] _ IH];
    intros whole Hget; simpl.
  - reflexivity.
  - simpl in Hk, He. subst k'.
    rewrite (Hget k v (or_introl eq_refl)), He. simpl.
    apply IH. intros k0 v0 Hin. apply Hget. right. exact Hin.
Qed.

(** What is read is equal to what was written. *)
Lemma store_reads_as_eqb (d d' : dict) :
  NoDup (Dict.keys d) ->
  store_reads_as float_repr float_of_str d d' ->
  Dict.eqb d' d = true.
Proof.
  intros Hnd H. unfold Dict.eqb.
  rewrite <- (Forall2_length H), Nat.eqb_refl. simpl.
  apply (store_reads_as_included d d' H d).
  intros k v Hin. apply dict_get_in; assumption.
Qed.

(** A store without a NaN whose finite values are read back is read as
    some store. *)
Lemma store_read_back (m : dict) :
  Forall (fun kv => Float.is_nan (snd kv) = false) m ->
  Forall (fun kv => read_back float_repr float_of_str (snd kv)) m ->
  exists m', store_reads_as float_repr float_of_str m m'.
Proof.
  induction m as [|[k v] m IH]; intros Hnan Hrb.
  - exists []. constructor.
  - inversion Hnan as [|? ? Hn Hnan']; subst.
    inversion Hrb as [|? ? Hv Hrb']; subst.
    destruct (IH Hnan' Hrb') as [m' Hm']. simpl in Hn, Hv.
    destruct v as [q| | |].
    + destruct Hv as [Ht [v' [Hf He]]].
      exists ((k, v') :: m'). constructor; [|exact Hm'].
      simpl. split; [reflexivity|]. split; [split; assumption | exact He].
    + exists ((k, PInf) :: m'). constructor; [|exact Hm'].
      simpl. repeat split.
    + exists ((k, NInf) :: m'). constructor; [|exact Hm'].
      simpl. repeat split.
    + discriminate.
Qed.

(** C7, as amended: for every mapping [m] from distinct names (as the keys
    of a dict are) to floats none of which is a NaN, [save_data] to a file
    followed by [load_data] from that file returns a mapping equal to [m]:
    the same names in the same order, with equal values.  This is so as long
    as the text that [repr] writes for each finite value is a number text
    that [float] reads as an equal float. *)
Theorem save_then_load (filename : string) (m : dict) (w : World) :
  NoDup (Dict.keys m) ->
  Forall (fun kv => Float.is_nan (snd kv) = false) m ->
  Forall (fun kv => read_back float_repr float_of_str (snd kv)) m ->
  exists (w1 : World) (m' : dict),
    save_data (Json.dumps float_repr) filename m w = (Ok tt, w1)
    /\ load_data (Json.loads float_of_str) filename w1 = (Ok m', w1)
    /\ Dict.keys m' = Dict.keys m
    /\ Dict.eqb m' m = true.
Proof.
  intros Hnd Hnan Hrb.
  destruct (store_read_back m Hnan Hrb) as [m' Hm'].
  exists (mkWorld (stdin w) (stdout w)
            (FS.write filename (Json.dumps float_repr m) (files w))), m'.
  split; [reflexivity|]. split; [|split].
  - unfold load_data. simpl files.
    rewrite fs_exists_write, fs_read_write_same.
    rewrite (loads_dumps_reads_as float_repr float_of_str m m' Hnd Hm').
    reflexivity.
  - apply (store_reads_as_keys float_repr float_of_str). exact Hm'.
  - apply store_reads_as_eqb; assumption.
Qed.

End ReadBack.

Lemma save_then_load_witness :
  exists (w1 : World) (m' : dict),
    save_data (Json.dumps PyText.repr) "recipes.json"
      [("Pancakes", Fin (500 # 100)); ("Toast", Fin (16 # 100));
       ("Gold leaf", PInf)]
      (mkWorld [] [] [("recipes.json", "{}")])
    = (Ok tt, w1)
    /\ load_data (Json.loads PyText.float_of_str) "recipes.json" w1
       = (Ok m', w1)
    /\ Dict.keys m' = ["Pancakes"; "Toast"; "Gold leaf"]
    /\ Dict.eqb m'
         [("Pancakes", Fin (500 # 100)); ("Toast", Fin (16 # 100));
          ("Gold leaf", PInf)]
       = true.
Proof.
  apply (save_then_load PyText.repr PyText.float_of_str "recipes.json"
           [("Pancakes", Fin (500 # 100)); ("Toast", Fin (16 # 100));
            ("Gold leaf", PInf)]
           (mkWorld [] [] [("recipes.json", "{}")])).
  - repeat constructor; simpl; intuition discriminate.
  - repeat constructor.
  - constructor; [|constructor; [|constructor; [exact I | constructor]]].
    + split; [vm_compute; reflexivity|].
      exists (Fin 5). split; vm_compute; reflexivity.
    + split; [vm_compute; reflexivity|].
      exists (Fin (4 # 25)). split; vm_compute; reflexivity.
Defined.

(** C7, as worded, fails on a mapping that holds a NaN: the document that
    is written reads [NaN], the mapping that is loaded holds a NaN under the
    same name, and the two mappings are not equal, a NaN being equal to
    nothing. *)
Lemma nan_store_not_equal :
  let m := [("Eggs", NaN)] in
  let w1 := mkWorld [] [] [("ingredients.json", Json.dumps PyText.repr m)] in
  save_data (Json.dumps PyText.repr) "ingredients.json" m (mkWorld [] [] [])
  = (Ok tt, w1)
  /\ exists m',
       load_data (Json.loads PyText.float_of_str) "ingredients.json" w1
       = (Ok m', w1)
       /\ Dict.eqb m' m = false.
Proof.
  split; [reflexivity|].
  exists [("Eggs", NaN)]. split; vm_compute; reflexivity.
Qed.


(** * Further properties *)

(** ** The validation loops *)

Lemma get_positive_float_on_first_valid (float_of_str : string -> option pyfloat)
    (prompt : string) (skipped : list string) :
  forall (line : string) (rest out : list string) (v : pyfloat),
    forallb (turned_down float_of_str) skipped = true ->
    float_of_str line = Some v ->
    Float.gt0 v = true ->
    get_positive_float_on float_of_str prompt (skipped ++ line :: rest) out
    = (Ok v,
       (rest, out ++ retries prompt (complaint float_of_str) skipped ++ [prompt])).
Proof.
  induction skipped as [|l skipped IH]; intros line rest out v Hs Hl Hg; simpl.
  - rewrite Hl, Hg. reflexivity.
  - simpl in Hs. apply andb_true_iff in Hs. destruct Hs as [Hd Hs].
    unfold turned_down in Hd. unfold complaint at 1.
    destruct (float_of_str l) as [value|].
    + apply negb_true_iff in Hd. rewrite Hd.
      rewrite (IH line rest _ v Hs Hl Hg). rewrite <- app_assoc. reflexivity.
    + rewrite (IH line rest _ v Hs Hl Hg). rewrite <- app_assoc. reflexivity.
Qed.

(** X1: [get_positive_float] skips every line that is not a positive
    number, printing the prompt and one message for each, and returns the
    value of the first line that is one; the lines after it are left unread
    and the files are untouched. *)
Theorem get_positive_float_first_valid (float_of_str : string -> option pyfloat)
    (prompt : string) (w : World) (skipped : list string) (line : string)
    (rest : list string) (v : pyfloat) :
  stdin w = skipped ++ line :: rest ->
  forallb (turned_down float_of_str) skipped = true ->
  float_of_str line = Some v ->
  Float.gt0 v = true ->
  get_positive_float float_of_str prompt w
  = (Ok v,
     mkWorld rest
       (stdout w ++ retries prompt (complaint float_of_str) skipped ++ [prompt])
       (files w)).
Proof.
  intros Hw Hs Hl Hg. unfold get_positive_float. rewrite Hw.
  rewrite (get_positive_float_on_first_valid _ _ _ _ _ _ _ Hs Hl Hg).
  reflexivity.
Qed.

Lemma get_positive_float_first_valid_witness :
  get_positive_float PyText.float_of_str "Weight: "
    (mkWorld ["abc"; "-2"; "0"; "nan"; "12.5"; "n"] [] [])
  = (Ok (Fin (25 # 2)),
     mkWorld ["n"]
       ["Weight: "; "Invalid input. Please enter a number.";
        "Weight: "; "Please enter a positive number.";
        "Weight: "; "Please enter a positive number.";
        "Weight: "; "Please enter a positive number.";
        "Weight: "] []).
Proof.
  apply (get_positive_float_first_valid PyText.float_of_str "Weight: "
           (mkWorld ["abc"; "-2"; "0"; "nan"; "12.5"; "n"] [] [])
           ["abc"; "-2"; "0"; "nan"] "12.5" ["n"] (Fin (25 # 2)));
    reflexivity.
Defined.

Lemma get_positive_float_on_exhausted (float_of_str : string -> option pyfloat)
    (prompt : string) (lines : list string) :
  forall out,
    forallb (turned_down float_of_str) lines = true ->
    get_positive_float_on float_of_str prompt lines out
    = (Raise EOFError,
       ([], out ++ retries prompt (complaint float_of_str) lines ++ [prompt])).
Proof.
  induction lines as [|l lines IH]; intros out Hs; simpl.
  - reflexivity.
  - simpl in Hs. apply andb_true_iff in Hs. destruct Hs as [Hd Hs].
    unfold turned_down in Hd. unfold complaint at 1.
    destruct (float_of_str l) as [value|].
    + apply negb_true_iff in Hd. rewrite Hd.
      rewrite (IH _ Hs). rewrite <- app_assoc. reflexivity.
    + rewrite (IH _ Hs). rewrite <- app_assoc. reflexivity.
Qed.

Lemma get_positive_float_on_raises (float_of_str : string -> option pyfloat)
    (prompt : string) (lines : list string) :
  forall out e st,
    get_positive_float_on float_of_str prompt lines out = (Raise e, st) ->
    forallb (turned_down float_of_str) lines = true.
Proof.
  induction lines as [|l lines IH]; intros out e st H; simpl in *.
  - reflexivity.
  - unfold turned_down at 1. destruct (float_of_str l) as [value|].
    + destruct (Float.gt0 value); [discriminate|]. simpl. eapply IH, H.
    + simpl. eapply IH, H.
Qed.

(** X2: [get_positive_float] fails exactly when no line that is left is a
    positive number: it then raises [EOFError], after one prompt and one
    message per line and a last prompt, with standard input used up. *)
Theorem get_positive_float_eof (float_of_str : string -> option pyfloat)
    (prompt : string) (w : World) :
  (forallb (turned_down float_of_str) (stdin w) = true ->
   get_positive_float float_of_str prompt w
   = (Raise EOFError,
      mkWorld []
        (stdout w ++ retries prompt (complaint float_of_str) (stdin w) ++ [prompt])
        (files w)))
  /\ (forall e w', get_positive_float float_of_str prompt w = (Raise e, w') ->
      forallb (turned_down float_of_str) (stdin w) = true).
Proof.
  unfold get_positive_float. split.
  - intros Hs. rewrite (get_positive_float_on_exhausted _ _ _ _ Hs). reflexivity.
  - intros e w'.
    destruct (get_positive_float_on float_of_str prompt (stdin w) (stdout w))
      as [r [lines out]] eqn:E.
    intros H. inversion H; subst.
    eapply get_positive_float_on_raises, E.
Qed.

Lemma get_positive_float_eof_witness :
  get_positive_float PyText.float_of_str "Weight: " (mkWorld ["x"; "-1"] [] [])
  = (Raise EOFError,
     mkWorld []
       ["Weight: "; "Invalid input. Please enter a number.";
        "Weight: "; "Please enter a positive number."; "Weight: "] []).
Proof.
  apply (proj1 (get_positive_float_eof PyText.float_of_str "Weight: "
                  (mkWorld ["x"; "-1"] [] []))).
  reflexivity.
Defined.

Lemma rstrip_idem (s : string) : Str.rstrip (Str.rstrip s) = Str.rstrip s.
Proof.
  induction s as [|c s IH]; simpl; [reflexivity|].
  destruct (Str.rstrip s) as [|d r] eqn:E.
  - destruct (Str.is_space c) eqn:Hc; simpl; [reflexivity|].
    rewrite Hc. reflexivity.
  - cbn [Str.rstrip]. cbn [Str.rstrip] in IH. rewrite IH. reflexivity.
Qed.

Lemma rstrip_head (s : string) (c : ascii) (r : string) :
  Str.rstrip s = String c r -> exists s', s = String c s'.
Proof.
  destruct s as [|x s]; simpl; [discriminate|].
  destruct (Str.rstrip s); [destruct (Str.is_space x)|];
    intros H; inversion H; subst; eexists; reflexivity.
Qed.

Lemma lstrip_head (s : string) (c : ascii) (r : string) :
  Str.lstrip s = String c r -> Str.is_space c = false.
Proof.
  induction s as [|x s IH]; simpl; [discriminate|].
  destruct (Str.is_space x) eqn:Hx; [exact IH|].
  intros H. inversion H; subst. exact Hx.
Qed.

(** Stripping a stripped string changes nothing. *)
Lemma strip_idem (s : string) : Str.strip (Str.strip s) = Str.strip s.
Proof.
  unfold Str.strip.
  destruct (Str.rstrip (Str.lstrip s)) as [|c r] eqn:E; [reflexivity|].
  destruct (rstrip_head _ _ _ E) as [t Ht].
  apply lstrip_head in Ht.
  cbn [Str.lstrip]. rewrite Ht. rewrite <- E. apply rstrip_idem.
Qed.

Lemma get_non_empty_string_on_first (prompt : string) (skipped : list string) :
  forall (line : string) (rest out : list string),
    forallb blank skipped = true ->
    blank line = false ->
    get_non_empty_string_on prompt (skipped ++ line :: rest) out
    = (Ok (Str.strip line),
       (rest,
        out ++ retries prompt (fun _ => "Input cannot be empty.") skipped
            ++ [prompt])).
Proof.
  induction skipped as [|l skipped IH]; intros line rest out Hs Hl; simpl.
  - unfold blank in Hl. apply negb_false_iff in Hl. rewrite Hl. reflexivity.
  - simpl in Hs. apply andb_true_iff in Hs. destruct Hs as [Hb Hs].
    unfold blank in Hb. apply negb_true_iff in Hb. rewrite Hb.
    rewrite (IH line rest _ Hs Hl). rewrite <- app_assoc. reflexivity.
Qed.

(** X3: [get_non_empty_string] skips the lines that hold white space only,
    printing the prompt and a message for each, and returns the first other
    line without its surrounding white space: what it returns is not empty
    and stripping it again changes nothing. *)
Theorem get_non_empty_string_first (prompt : string) (w : World)
    (skipped : list string) (line : string) (rest : list string) :
  stdin w = skipped ++ line :: rest ->
  forallb blank skipped = true ->
  blank line = false ->
  get_non_empty_string prompt w
  = (Ok (Str.strip line),
     mkWorld rest
       (stdout w ++ retries prompt (fun _ => "Input cannot be empty.") skipped
          ++ [prompt])
       (files w))
  /\ Str.strip line <> EmptyString
  /\ Str.strip (Str.strip line) = Str.strip line.
Proof.
  intros Hw Hs Hl. split; [|split].
  - unfold get_non_empty_string. rewrite Hw.
    rewrite (get_non_empty_string_on_first _ _ _ _ _ Hs Hl). reflexivity.
  - unfold blank in Hl. apply negb_false_iff in Hl.
    intros E. rewrite E in Hl. discriminate.
  - apply strip_idem.
Qed.

Lemma get_non_empty_string_first_witness :
  get_non_empty_string "Enter recipe name: "
    (mkWorld [""; "   "; "  Apple pie "; "4"] [] [])
  = (Ok "Apple pie",
     mkWorld ["4"]
       ["Enter recipe name: "; "Input cannot be empty.";
        "Enter recipe name: "; "Input cannot be empty.";
        "Enter recipe name: "] []).
Proof.
  apply (get_non_empty_string_first "Enter recipe name: "
           (mkWorld [""; "   "; "  Apple pie "; "4"] [] [])
           [""; "   "] "  Apple pie " ["4"]); reflexivity.
Defined.

(** ** Name resolution, continued *)

(** X4: [suggest_name] never makes a name up: what it returns is the
    typed name or one of the known names. *)
Theorem suggest_name_known (input_name : string) (valid_names : list string)
    (w : World) (r : string) (w' : World) :
  suggest_name input_name valid_names w = (Ok r, w') ->
  r = input_name \/ In r valid_names.
Proof.
  unfold suggest_name.
  destruct (find _ valid_names) as [name|] eqn:Hf.
  - intros H. inversion H; subst. right. apply (find_some _ _ Hf).
  - destruct (suggestions_of input_name valid_names) as [|c l] eqn:Hs.
    + intros H. inversion H; subst. left. reflexivity.
    + intros H. bind_cases H answer w1 E; [|discriminate].
      inversion H; subst.
      destruct (String.eqb _ "y"); [right | left; reflexivity].
      assert (Hin : In c (suggestions_of input_name valid_names))
        by (rewrite Hs; left; reflexivity).
      unfold suggestions_of in Hin. apply filter_In in Hin. apply Hin.
Qed.

Lemma suggest_name_known_witness :
  "Sugar" = "sug" \/ In "Sugar" ["Salt"; "Sugar"].
Proof.
  apply (suggest_name_known "sug" ["Salt"; "Sugar"] (mkWorld ["y"] [] [])
           "Sugar"
           (mkWorld [] ["Did you mean 'Sugar' instead of 'sug'? (y/n): "] [])).
  reflexivity.
Defined.

(** The first element that passes a test is also the first to pass a
    stronger test that it passes itself. *)
Lemma find_first_of_filter (p q : string -> bool) (names : list string)
    (c : string) (l : list string) :
  filter p names = c :: l ->
  (forall k, q k = true -> p k = true) ->
  q c = true ->
  find q names = Some c.
Proof.
  intros Hf Hqp Hqc. induction names as [|k names IH]; simpl in *.
  - discriminate.
  - destruct (p k) eqn:Hp.
    + inversion Hf; subst. rewrite Hqc. reflexivity.
    + destruct (q k) eqn:Hq.
      * apply Hqp in Hq. congruence.
      * apply IH. exact Hf.
Qed.

(** X5: resolution is stable.  A known name that [suggest_name] has
    returned is returned again when it is resolved against the same names,
    and this time without a question: nothing is written and no line is
    read. *)
Theorem suggest_name_stable (input_name : string) (valid_names : list string)
    (w : World) (r : string) (w1 : World) :
  suggest_name input_name valid_names w = (Ok r, w1) ->
  In r valid_names ->
  forall w2, suggest_name r valid_names w2 = (Ok r, w2).
Proof.
  unfold suggest_name at 1.
  destruct (find _ valid_names) as [name|] eqn:Hf.
  - intros H _ w2. inversion H; subst.
    pose proof (find_some _ _ Hf) as [_ He].
    unfold exact_match in He. apply String.eqb_eq in He.
    unfold suggest_name. rewrite He, Hf. reflexivity.
  - destruct (suggestions_of input_name valid_names) as [|c l] eqn:Hs.
    + intros H Hin. inversion H; subst. exfalso.
      apply (find_none _ _ Hf) in Hin. unfold exact_match in Hin.
      rewrite String.eqb_refl in Hin. discriminate.
    + intros H Hin w2. bind_cases H answer w3 E; [|discriminate].
      inversion H; subst.
      destruct (String.eqb _ "y").
      * assert (Hc : is_suggestion (Str.lower input_name) c = true).
        { assert (Hin' : In c (suggestions_of input_name valid_names))
            by (rewrite Hs; left; reflexivity).
          unfold suggestions_of in Hin'. apply filter_In in Hin'. apply Hin'. }
        unfold suggest_name.
        rewrite (find_first_of_filter (is_suggestion (Str.lower input_name))
                   (exact_match (Str.lower c)) valid_names c l Hs).
        -- reflexivity.
        -- intros k Hk. unfold exact_match in Hk. apply String.eqb_eq in Hk.
           unfold is_suggestion in *. rewrite Hk. exact Hc.
        -- unfold exact_match. apply String.eqb_refl.
      * exfalso. apply (find_none _ _ Hf) in Hin. unfold exact_match in Hin.
        rewrite String.eqb_refl in Hin. discriminate.
Qed.

Lemma suggest_name_stable_witness :
  suggest_name "Eggs" ["Flour"; "Eggs"; "eggs"] (mkWorld ["100"] [] [])
  = (Ok "Eggs", mkWorld ["100"] [] []).
Proof.
  apply (suggest_name_stable "egg" ["Flour"; "Eggs"; "eggs"]
           (mkWorld ["Y"; "100"] [] []) "Eggs"
           (mkWorld ["100"]
              ["Did you mean 'Eggs' instead of 'egg'? (y/n): "] [])).
  - reflexivity.
  - simpl. auto.
Defined.


(** ** What the operations do to the stores and to the files *)

Lemma dict_get_none_not_in (k : string) (d : dict) :
  Dict.get k d = None -> ~ In k (Dict.keys d).
Proof.
  induction d as [|[k' v'] d IH]; simpl; intros H Hin; [contradiction|].
  destruct (String.eqb_spec k k') as [->|Hne]; [discriminate|].
  destruct Hin as [E|Hin]; [congruence | exact (IH H Hin)].
Qed.

(** What [suggest_name] returns is a known name, or the typed name when no
    known name equals it up to case. *)
Lemma suggest_name_cases (input_name : string) (valid_names : list string)
    (w : World) (r : string) (w' : World) :
  suggest_name input_name valid_names w = (Ok r, w') ->
  In r valid_names
  \/ (r = input_name
      /\ forall key, In key valid_names -> Str.lower key <> Str.lower r).
Proof.
  unfold suggest_name.
  destruct (find _ valid_names) as [name|] eqn:Hf.
  - intros H. inversion H; subst. left. apply (find_some _ _ Hf).
  - assert (Hnone : forall key, In key valid_names ->
                      Str.lower key <> Str.lower input_name).
    { intros key Hin E. apply (find_none _ _ Hf) in Hin.
      unfold exact_match in Hin. rewrite E, String.eqb_refl in Hin.
      discriminate. }
    destruct (suggestions_of input_name valid_names) as [|c l] eqn:Hs.
    + intros H. inversion H; subst. right. split; [reflexivity | exact Hnone].
    + intros H. bind_cases H answer w1 E; [|discriminate].
      inversion H; subst.
      destruct (String.eqb _ "y"); [left | right; split; [reflexivity | exact Hnone]].
      assert (Hin : In c (suggestions_of input_name valid_names))
        by (rewrite Hs; left; reflexivity).
      unfold suggestions_of in Hin. apply filter_In in Hin. apply Hin.
Qed.

Section Traces.

Variable float_of_str : string -> option pyfloat.
Variable fmt2f : pyfloat -> string.
Variable json_dumps : dict -> string.

Lemma evolves_trans (a b c : RecipeManager) (fa fb fc : list (string * string)) :
  evolves json_dumps a fa b fb -> evolves json_dumps b fb c fc ->
  evolves json_dumps a fa c fc.
Proof.
  intros Hab Hbc. induction Hbc.
  - exact Hab.
  - apply evolves_ingredient; auto.
  - apply evolves_recipe; auto.
Qed.

Lemma get_cost_per_gram_trace (name : string) (self : RecipeManager) (w : World)
    (r : result (pyfloat * RecipeManager)) (w' : World) :
  get_cost_per_gram float_of_str json_dumps name self w = (r, w') ->
  exists self1,
    evolves json_dumps self (files w) self1 (files w')
    /\ forall cost self', r = Ok (cost, self') -> self' = self1.
Proof.
  unfold get_cost_per_gram. intros H. bind_cases H resolved w1 E.
  - pose proof (suggest_name_effect _ _ _ _ _ E) as [Hf1 _].
    apply suggest_name_cases in E.
    destruct (Dict.get resolved (ingredients_db self)) as [c|] eqn:G.
    + inversion H; subst. exists self. rewrite Hf1. split; [constructor|].
      intros cost self' Hr. inversion Hr. reflexivity.
    + bind_cases H cost w2 E2.
      * apply get_positive_float_effect in E2. destruct E2 as [Hf2 [_ [Hpos _]]].
        unfold bind, save_data, ret in H. inversion H; subst. simpl.
        pose proof (dict_get_none_not_in _ _ G) as Hnot.
        destruct E as [Hin|[_ Hnew]]; [contradiction|].
        rewrite (dict_set_new _ _ _ Hnot), Hf2, Hf1.
        exists (mkManager (ingredients_db self ++ [(resolved, cost)])
                  (recipes_db self)).
        split.
        -- apply (evolves_ingredient json_dumps self self); [constructor | exact Hnew | exact Hpos].
        -- intros c s' Hr. inversion Hr. reflexivity.
      * apply get_positive_float_effect in E2. destruct E2 as [Hf2 _].
        inversion H; subst. exists self. rewrite Hf2, Hf1.
        split; [constructor | discriminate].
  - apply suggest_name_effect in E. destruct E as [Hf1 _].
    inversion H; subst. exists self. rewrite Hf1.
    split; [constructor | discriminate].
Qed.

Lemma add_ingredients_trace (fuel : nat) :
  forall (self : RecipeManager) (recipe : Recipe.t) (w : World)
         (r : result (Recipe.t * RecipeManager)) (w' : World),
    add_ingredients float_of_str json_dumps fuel self recipe w = (r, w') ->
    exists self1,
      evolves json_dumps self (files w) self1 (files w')
      /\ forall recipe' self', r = Ok (recipe', self') -> self' = self1.
Proof.
  induction fuel as [|fuel IH]; intros self recipe w r w' H.
  - inversion H; subst. exists self. split; [constructor | discriminate].
  - cbn [add_ingredients] in H.
    bind_cases H typed w1 E1;
      apply get_non_empty_string_effect in E1; destruct E1 as [F1 _];
      [| inversion H; subst; exists self; rewrite F1;
         split; [constructor | discriminate]].
    bind_cases H ing_name w2 E2;
      apply suggest_name_effect in E2; destruct E2 as [F2 _];
      [| inversion H; subst; exists self; rewrite F2, F1;
         split; [constructor | discriminate]].
    bind_cases H weight w3 E3;
      apply get_positive_float_effect in E3; destruct E3 as [F3 _];
      [| inversion H; subst; exists self; rewrite F3, F2, F1;
         split; [constructor | discriminate]].
    bind_cases H cs w4 E4;
      apply get_cost_per_gram_trace in E4; destruct E4 as [self1 [Hev Hs1]];
      rewrite F3, F2, F1 in Hev;
      [| inversion H; subst; exists self1; split; [exact Hev | discriminate]].
    destruct cs as [cost_per_g self2].
    rewrite (Hs1 _ _ eq_refl) in H.
    bind_cases H cont w5 E5;
      apply input_effect in E5; destruct E5 as [F5 _];
      [| inversion H; subst; exists self1; rewrite F5;
         split; [exact Hev | discriminate]].
    destruct (String.eqb (Str.lower cont) "y").
    + apply IH in H. destruct H as [self3 [Hev' Hs3]].
      exists self3. split; [|exact Hs3].
      rewrite F5 in Hev'. eapply evolves_trans; eassumption.
    + inversion H; subst. exists self1. rewrite F5.
      split; [exact Hev|]. intros r' s' Hr. inversion Hr. reflexivity.
Qed.

Lemma new_recipe_files (w : World) (r : result Recipe.t) (w' : World) :
  new_recipe float_of_str w = (r, w') -> files w' = files w.
Proof.
  unfold new_recipe. intros H.
  bind_cases H name w1 E1;
    apply get_non_empty_string_effect in E1; destruct E1 as [F1 _];
    [| inversion H; subst; exact F1].
  bind_cases H value w2 E2;
    apply get_positive_float_effect in E2; destruct E2 as [F2 _];
    [| inversion H; subst; congruence].
  unfold bind, lift, ret in H.
  destruct (int_of_float value); inversion H; subst; congruence.
Qed.

Lemma create_recipe_trace (self : RecipeManager) (w : World)
    (r : result (unit * RecipeManager)) (w' : World) :
  create_recipe float_of_str fmt2f json_dumps self w = (r, w') ->
  exists self1,
    evolves json_dumps self (files w) self1 (files w')
    /\ forall u self', r = Ok (u, self') -> self' = self1.
Proof.
  unfold create_recipe. intros H.
  bind_cases H recipe0 w0 E0;
    apply new_recipe_files in E0;
    [| inversion H; subst; exists self; rewrite E0;
       split; [constructor | discriminate]].
  bind_cases H rs w1 E1;
    apply add_ingredients_trace in E1; destruct E1 as [self1 [Hev Hs1]];
    rewrite E0 in Hev;
    [| inversion H; subst; exists self1; split; [exact Hev | discriminate]].
  destruct rs as [recipe self2]. rewrite (Hs1 _ _ eq_refl) in H.
  unfold store_recipe, bind, lift, print, save_data, ret in H.
  destruct (Recipe.cost_per_portion recipe) as [cost|e].
  - inversion H; subst. simpl.
    eexists. split.
    + apply evolves_recipe. exact Hev.
    + intros u s' Hr. inversion Hr. reflexivity.
  - inversion H; subst. exists self1. split; [exact Hev | discriminate].
Qed.

Lemma print_all_effect (lines : list string) :
  forall w, print_all lines w
            = (Ok tt, mkWorld (stdin w) (stdout w ++ lines) (files w)).
Proof.
  induction lines as [|l lines IH]; intros w; simpl.
  - unfold ret. rewrite app_nil_r. destruct w; reflexivity.
  - unfold bind, print. rewrite IH. simpl. rewrite <- app_assoc. reflexivity.
Qed.

Lemma view_recipe_cost_effect (self : RecipeManager) (w : World) :
  view_recipe_cost fmt2f self w
  = (Ok (tt, self),
     mkWorld (stdin w) (stdout w ++ listing fmt2f (recipes_db self)) (files w)).
Proof.
  unfold view_recipe_cost, listing.
  destruct (recipes_db self) as [|kv d] eqn:E.
  - reflexivity.
  - change (Dict.is_empty (kv :: d)) with false. cbv iota.
    unfold bind, print, ret. rewrite print_all_effect. simpl.
    rewrite <- app_assoc. reflexivity.
Qed.


Lemma run_operation_trace (o : operation) (self : RecipeManager) (w : World)
    (r : result RecipeManager) (w' : World) :
  run_operation float_of_str fmt2f json_dumps o self w = (r, w') ->
  exists self1,
    evolves json_dumps self (files w) self1 (files w')
    /\ forall self', r = Ok self' -> self' = self1.
Proof.
  destruct o as [name| |]; unfold run_operation; intros H.
  - bind_cases H p w1 E; apply get_cost_per_gram_trace in E;
      destruct E as [self1 [Hev Hs]]; inversion H; subst;
      exists self1; (split; [exact Hev|]); [|discriminate].
    intros s' Hr. inversion Hr. destruct p as [c s2]. simpl.
    apply (Hs c s2 eq_refl).
  - bind_cases H p w1 E; apply create_recipe_trace in E;
      destruct E as [self1 [Hev Hs]]; inversion H; subst;
      exists self1; (split; [exact Hev|]); [|discriminate].
    intros s' Hr. inversion Hr. destruct p as [u s2]. simpl.
    apply (Hs u s2 eq_refl).
  - unfold bind in H. rewrite view_recipe_cost_effect in H.
    inversion H; subst. simpl. exists self. split; [constructor|].
    intros s' Hr. inversion Hr. reflexivity.
Qed.

End Traces.

Section Invariants.

Variable float_of_str : string -> option pyfloat.
Variable fmt2f : pyfloat -> string.
Variable json_dumps : dict -> string.

Lemma run_operations_trace (os : list operation) :
  forall (self : RecipeManager) (w : World) (r : result RecipeManager)
         (w' : World),
    run_operations float_of_str fmt2f json_dumps os self w = (r, w') ->
    exists self1,
      evolves json_dumps self (files w) self1 (files w')
      /\ forall self', r = Ok self' -> self' = self1.
Proof.
  induction os as [|o os IH]; intros self w r w' H.
  - inversion H; subst. exists self. split; [constructor|].
    intros s' Hr. inversion Hr. reflexivity.
  - cbn [run_operations] in H. bind_cases H self1 w1 E.
    + apply run_operation_trace in E. destruct E as [s1 [Hev Hs]].
      rewrite (Hs _ eq_refl) in H. apply IH in H.
      destruct H as [s2 [Hev' Hs']]. exists s2. split; [|exact Hs'].
      eapply evolves_trans; eassumption.
    + apply run_operation_trace in E. destruct E as [s1 [Hev Hs]].
      inversion H; subst. exists s1. split; [exact Hev | discriminate].
Qed.

Lemma NoDup_snoc {A : Type} (l : list A) (x : A) :
  NoDup l -> ~ In x l -> NoDup (l ++ [x]).
Proof.
  induction l as [|a l IH]; simpl; intros Hnd Hx.
  - constructor; [intros [] | constructor].
  - inversion Hnd; subst. constructor.
    + intros Hin. apply in_app_or in Hin. destruct Hin as [Hin|[E|[]]].
      * contradiction.
      * apply Hx. left. symmetry. exact E.
    + apply IH; [assumption|]. intros Hin. apply Hx. right. exact Hin.
Qed.

Lemma evolves_appends (m m' : RecipeManager) (fs fs' : list (string * string)) :
  evolves json_dumps m fs m' fs' ->
  exists added,
    ingredients_db m' = ingredients_db m ++ added
    /\ Forall (fun kv => Float.gt0 (snd kv) = true) added.
Proof.
  intros H. induction H as [m fs | m m' fs fs' name cost H IH Hnew Hpos
                                    | m m' fs fs' name cost H IH].
  - exists []. rewrite app_nil_r. split; [reflexivity | constructor].
  - destruct IH as [added [Ha Hf]]. exists (added ++ [(name, cost)]). simpl.
    rewrite Ha, app_assoc. split; [reflexivity|].
    apply Forall_app. split; [exact Hf|]. constructor; [exact Hpos | constructor].
  - exact IH.
Qed.

Lemma evolves_distinct (m m' : RecipeManager) (fs fs' : list (string * string)) :
  evolves json_dumps m fs m' fs' ->
  distinct_up_to_case (ingredients_db m) ->
  distinct_up_to_case (ingredients_db m').
Proof.
  intros H Hd. induction H as [m fs | m m' fs fs' name cost H IH Hnew Hpos
                                     | m m' fs fs' name cost H IH].
  - exact Hd.
  - specialize (IH Hd). unfold distinct_up_to_case, Dict.keys in *. simpl.
    rewrite !map_app. simpl. apply NoDup_snoc; [exact IH|].
    intros Hin. apply in_map_iff in Hin. destruct Hin as [key [Hl Hin]].
    exact (Hnew key Hin Hl).
  - exact (IH Hd).
Qed.

Lemma evolves_mirrors (m m' : RecipeManager) (fs fs' : list (string * string)) :
  evolves json_dumps m fs m' fs' ->
  mirrors json_dumps INGREDIENTS_FILE (ingredients_db m) fs
  /\ mirrors json_dumps RECIPES_FILE (recipes_db m) fs ->
  mirrors json_dumps INGREDIENTS_FILE (ingredients_db m') fs'
  /\ mirrors json_dumps RECIPES_FILE (recipes_db m') fs'.
Proof.
  intros H Hm. induction H as [m fs | m m' fs fs' name cost H IH Hnew Hpos
                                     | m m' fs fs' name cost H IH].
  - exact Hm.
  - destruct (IH Hm) as [_ Hr]. unfold mirrors in *. simpl.
    rewrite fs_read_write_same.
    rewrite fs_read_write_other by discriminate. split; [reflexivity | exact Hr].
  - destruct (IH Hm) as [Hi _]. unfold mirrors in *. simpl.
    rewrite fs_read_write_same.
    rewrite fs_read_write_other by discriminate. split; [exact Hi | reflexivity].
Qed.

Lemma evolves_other_files (m m' : RecipeManager) (fs fs' : list (string * string))
    (file : string) :
  evolves json_dumps m fs m' fs' ->
  file <> INGREDIENTS_FILE -> file <> RECIPES_FILE ->
  FS.read file fs' = FS.read file fs.
Proof.
  intros H Hi Hr. induction H as [m fs | m m' fs fs' name cost H IH Hnew Hpos
                                     | m m' fs fs' name cost H IH].
  - reflexivity.
  - rewrite fs_read_write_other; assumption.
  - rewrite fs_read_write_other; assumption.
Qed.

(** X7: over every sequence of operations the ingredient store only grows
    at its end: the store it ends with is the store it started with, in the
    same order, followed by the entries that were added, and every added
    cost is positive. *)
Theorem ingredient_store_grows (os : list operation) (self : RecipeManager)
    (w : World) (self' : RecipeManager) (w' : World) :
  run_operations float_of_str fmt2f json_dumps os self w = (Ok self', w') ->
  exists added,
    ingredients_db self' = ingredients_db self ++ added
    /\ Forall (fun kv => Float.gt0 (snd kv) = true) added.
Proof.
  intros H. apply run_operations_trace in H. destruct H as [s1 [Hev Hs]].
  rewrite (Hs _ eq_refl). eapply evolves_appends, Hev.
Qed.

(** X8: when no two names of the ingredient store are equal up to case,
    this is still so after every sequence of operations: a name is added
    only when no name of the store equals it up to case. *)
Theorem names_stay_distinct_up_to_case (os : list operation)
    (self : RecipeManager) (w : World) (self' : RecipeManager) (w' : World) :
  run_operations float_of_str fmt2f json_dumps os self w = (Ok self', w') ->
  distinct_up_to_case (ingredients_db self) ->
  distinct_up_to_case (ingredients_db self').
Proof.
  intros H. apply run_operations_trace in H. destruct H as [s1 [Hev Hs]].
  rewrite (Hs _ eq_refl). eapply evolves_distinct, Hev.
Qed.

(** X9: the files follow the stores.  When each store file holds the
    document of its store (or is missing while the store is empty), this is
    still so after every sequence of operations. *)
Theorem files_mirror_stores (os : list operation) (self : RecipeManager)
    (w : World) (self' : RecipeManager) (w' : World) :
  run_operations float_of_str fmt2f json_dumps os self w = (Ok self', w') ->
  mirrors json_dumps INGREDIENTS_FILE (ingredients_db self) (files w)
  /\ mirrors json_dumps RECIPES_FILE (recipes_db self) (files w) ->
  mirrors json_dumps INGREDIENTS_FILE (ingredients_db self') (files w')
  /\ mirrors json_dumps RECIPES_FILE (recipes_db self') (files w').
Proof.
  intros H. apply run_operations_trace in H. destruct H as [s1 [Hev Hs]].
  rewrite (Hs _ eq_refl). eapply evolves_mirrors, Hev.
Qed.

(** X10: whatever the operations and however they end, with a result or
    with an exception, no file other than the two store files is created or
    changed. *)
Theorem other_files_untouched (os : list operation) (self : RecipeManager)
    (w : World) (r : result RecipeManager) (w' : World) (file : string) :
  run_operations float_of_str fmt2f json_dumps os self w = (r, w') ->
  file <> INGREDIENTS_FILE -> file <> RECIPES_FILE ->
  FS.read file (files w') = FS.read file (files w).
Proof.
  intros H. apply run_operations_trace in H. destruct H as [s1 [Hev _]].
  eapply evolves_other_files, Hev.
Qed.

End Invariants.

Lemma ingredient_store_grows_witness :
  exists (self' : RecipeManager) (w' : World),
    run_operations PyText.float_of_str PyText.fmt2f (Json.dumps PyText.repr)
      [CreateRecipe; GetCostPerGram "salt"]
      (mkManager [("Flour", Fin (1 # 100))] [])
      (mkWorld ["Bread"; "2"; "flour"; "500"; "y"; "Yeast"; "7"; "0.02"; "n";
                "0.001"] [] [])
    = (Ok self', w')
    /\ exists added,
         ingredients_db self' = [("Flour", Fin (1 # 100))] ++ added
         /\ Forall (fun kv => Float.gt0 (snd kv) = true) added.
Proof.
  eexists. eexists. split.
  - vm_compute. reflexivity.
  - eapply (ingredient_store_grows PyText.float_of_str PyText.fmt2f
             (Json.dumps PyText.repr) [CreateRecipe; GetCostPerGram "salt"]
             (mkManager [("Flour", Fin (1 # 100))] [])
             (mkWorld ["Bread"; "2"; "flour"; "500"; "y"; "Yeast"; "7"; "0.02";
                       "n"; "0.001"] [] [])).
    vm_compute. reflexivity.
Defined.

Lemma names_stay_distinct_up_to_case_witness :
  exists (self' : RecipeManager) (w' : World),
    run_operations PyText.float_of_str PyText.fmt2f (Json.dumps PyText.repr)
      [GetCostPerGram "FLOUR"; GetCostPerGram "salt"]
      (mkManager [("Flour", Fin (1 # 100))] [])
      (mkWorld ["0.001"] [] [])
    = (Ok self', w')
    /\ distinct_up_to_case (ingredients_db self').
Proof.
  eexists. eexists. split.
  - vm_compute. reflexivity.
  - eapply (names_stay_distinct_up_to_case PyText.float_of_str PyText.fmt2f
             (Json.dumps PyText.repr)
             [GetCostPerGram "FLOUR"; GetCostPerGram "salt"]
             (mkManager [("Flour", Fin (1 # 100))] [])
             (mkWorld ["0.001"] [] [])).
    + vm_compute. reflexivity.
    + unfold distinct_up_to_case. simpl.
      constructor; [intros [] | constructor].
Defined.

Lemma files_mirror_stores_witness :
  exists (self' : RecipeManager) (w' : World),
    run_operations PyText.float_of_str PyText.fmt2f (Json.dumps PyText.repr)
      [CreateRecipe] (mkManager [] [])
      (mkWorld ["Toast"; "2"; "Bread"; "80"; "0.004"; "n"] [] [])
    = (Ok self', w')
    /\ mirrors (Json.dumps PyText.repr) INGREDIENTS_FILE (ingredients_db self')
         (files w')
    /\ mirrors (Json.dumps PyText.repr) RECIPES_FILE (recipes_db self')
         (files w').
Proof.
  eexists. eexists. split.
  - vm_compute. reflexivity.
  - eapply (files_mirror_stores PyText.float_of_str PyText.fmt2f
             (Json.dumps PyText.repr) [CreateRecipe] (mkManager [] [])
             (mkWorld ["Toast"; "2"; "Bread"; "80"; "0.004"; "n"] [] [])).
    + vm_compute. reflexivity.
    + split; reflexivity.
Defined.

Lemma other_files_untouched_witness :
  exists (r : result RecipeManager) (w' : World),
    run_operations PyText.float_of_str PyText.fmt2f (Json.dumps PyText.repr)
      [CreateRecipe] (mkManager [] [])
      (mkWorld ["Toast"; "2"; "Bread"; "80"; "0.004"]
         [] [("notes.txt", "buy bread")])
    = (r, w')
    /\ FS.read "notes.txt" (files w') = Some "buy bread".
Proof.
  eexists. eexists. split.
  - vm_compute. reflexivity.
  - eapply (other_files_untouched PyText.float_of_str PyText.fmt2f
              (Json.dumps PyText.repr) [CreateRecipe] (mkManager [] [])
              (mkWorld ["Toast"; "2"; "Bread"; "80"; "0.004"]
                 [] [("notes.txt", "buy bread")])).
    + vm_compute. reflexivity.
    + discriminate.
    + discriminate.
Defined.

(** ** The portion count, continued *)

(** X11: on a positive value [int] rounds down: the portion count is the
    whole number of portions that the entered value holds, so it is 0
    exactly for the values below 1. *)
Theorem int_of_positive_float (q : Q) (n : Z) :
  Float.gt0 (Fin q) = true ->
  int_of_float (Fin q) = Ok n ->
  (inject_Z n <= q)%Q /\ (q < inject_Z (n + 1))%Q /\ (n = 0 <-> (q < 1)%Q).
Proof.
  destruct q as [a d]. simpl. intros Hpos H. inversion H; subst. clear H.
  apply Z.ltb_lt in Hpos.
  rewrite Z.quot_div_nonneg by lia.
  pose proof (Z.div_mod a (Zpos d) ltac:(lia)) as Hdm.
  pose proof (Z.mod_pos_bound a (Zpos d) ltac:(lia)) as Hm.
  unfold Qle, Qlt. simpl.
  repeat split; nia.
Qed.

Lemma int_of_positive_float_witness :
  (inject_Z 2 <= 29 # 10)%Q /\ (29 # 10 < inject_Z (2 + 1))%Q
  /\ (2 = 0 <-> (29 # 10 < 1)%Q).
Proof.
  apply (int_of_positive_float (29 # 10) 2); reflexivity.
Defined.

(** ** Costs, continued *)


(** ** Sessions, continued *)

Section Sessions.

Variable float_of_str : string -> option pyfloat.
Variable fmt2f : pyfloat -> string.
Variable json_dumps : dict -> string.

(** What the loop of [create_recipe] builds: the ingredients that were
    there, then at least one more, each with a positive weight. *)
Lemma add_ingredients_builds (fuel : nat) :
  forall (self : RecipeManager) (recipe : Recipe.t) (w : World)
         (recipe' : Recipe.t) (self' : RecipeManager) (w' : World),
    add_ingredients float_of_str json_dumps fuel self recipe w
    = (Ok (recipe', self'), w') ->
    exists added,
      Recipe.ingredients recipe' = Recipe.ingredients recipe ++ added
      /\ added <> []
      /\ Forall (fun i => Float.gt0 (Ingredient.weight_g i) = true) added.
Proof.
  induction fuel as [|fuel IH]; intros self recipe w recipe' self' w' H.
  - discriminate.
  - cbn [add_ingredients] in H.
    bind_cases H typed w1 E1; [|discriminate].
    bind_cases H ing_name w2 E2; [|discriminate].
    bind_cases H weight w3 E3; [|discriminate].
    apply get_positive_float_effect in E3. destruct E3 as [_ [_ [Hw _]]].
    bind_cases H cs w4 E4; [|discriminate].
    destruct cs as [cost_per_g self1].
    bind_cases H cont w5 E5; [|discriminate].
    destruct (String.eqb (Str.lower cont) "y").
    + apply IH in H. destruct H as [added [Ha [_ Hws]]].
      simpl in Ha. rewrite <- app_assoc in Ha.
      eexists. split; [exact Ha|]. split; [discriminate|].
      constructor; [exact Hw | exact Hws].
    + inversion H; subst. simpl.
      eexists. split; [reflexivity|]. split; [discriminate|].
      constructor; [exact Hw | constructor].
Qed.

(** A new recipe has no ingredient yet. *)
Lemma new_recipe_empty (w : World) (r : Recipe.t) (w' : World) :
  new_recipe float_of_str w = (Ok r, w') -> Recipe.ingredients r = [].
Proof.
  unfold new_recipe. intros H.
  bind_cases H name w1 E1; [|discriminate].
  bind_cases H value w2 E2; [|discriminate].
  unfold bind, lift, ret in H.
  destruct (int_of_float value); inversion H; subst. reflexivity.
Qed.

(** The two ways in which [new_recipe] fails. *)
Lemma new_recipe_raises (w : World) (e : exn) (w' : World) :
  new_recipe float_of_str w = (Raise e, w') ->
  e = EOFError \/ e = OverflowError.
Proof.
  unfold new_recipe. intros E0.
  bind_cases E0 name w2 E2.
  - bind_cases E0 value w3 E3.
    + apply get_positive_float_effect in E3. destruct E3 as [_ [_ [Hpos _]]].
      unfold bind, lift, ret in E0.
      destruct value; simpl in *; try discriminate;
        inversion E0; subst; auto.
    + apply get_positive_float_effect in E3. destruct E3 as [_ [_ He]].
      inversion E0; subst. auto.
  - apply get_non_empty_string_effect in E2. destruct E2 as [_ [_ He]].
    inversion E0; subst. auto.
Qed.

(** X14: a completed [create_recipe] session is the three steps of the
    code, each of which returned: the name and the portion count were read
    into a recipe without ingredients, the loop added ingredients to it, and
    the cost of the recipe that the loop returned was reported and stored.
    That recipe has at least one ingredient, every weight of it is positive,
    and it has at least one portion. *)
Theorem completed_recipe_well_formed (self : RecipeManager) (w : World)
    (self' : RecipeManager) (w' : World) :
  create_recipe float_of_str fmt2f json_dumps self w = (Ok (tt, self'), w') ->
  exists (recipe0 recipe : Recipe.t) (self1 : RecipeManager) (w0 w1 : World),
    new_recipe float_of_str w = (Ok recipe0, w0)
    /\ add_ingredients float_of_str json_dumps (S (List.length (stdin w)))
         self recipe0 w0 = (Ok (recipe, self1), w1)
    /\ store_recipe fmt2f json_dumps self1 recipe w1 = (Ok (tt, self'), w')
    /\ Recipe.ingredients recipe0 = []
    /\ Recipe.ingredients recipe <> []
    /\ Forall (fun i => Float.gt0 (Ingredient.weight_g i) = true)
         (Recipe.ingredients recipe)
    /\ 1 <= Recipe.portions recipe.
Proof.
  unfold create_recipe. intros H.
  bind_cases H recipe0 w0 E0; [|discriminate].
  bind_cases H rs w1 E1; [|discriminate].
  destruct rs as [recipe self1].
  exists recipe0, recipe, self1, w0, w1.
  pose proof (new_recipe_portions _ _ _ _ E0) as Hp0.
  pose proof (new_recipe_empty _ _ _ E0) as Hi0.
  pose proof (new_recipe_effect _ _ _ _ E0) as [Hl _].
  pose proof E1 as E1'.
  apply add_ingredients_effect in E1'; [|lia].
  destruct E1' as [_ [Hport _]].
  destruct (add_ingredients_builds _ _ _ _ _ _ _ E1) as [added [Ha [Hne Hws]]].
  rewrite Hi0 in Ha. simpl in Ha.
  split; [first [exact E0 | reflexivity]|].
  split; [first [exact E1 | reflexivity]|].
  split; [exact H|]. split; [exact Hi0|]. rewrite Ha. split; [exact Hne|]. split; [exact Hws|].
  apply store_recipe_spec in H. destruct H as [cost [Hc _]].
  unfold Recipe.cost_per_portion in Hc.
  destruct (Z.eqb_spec (Recipe.portions recipe) 0); [discriminate | lia].
Qed.

(** X16: on a manager whose stores hold floats, and with a console and
    files that do not fail by themselves, [create_recipe] can fail in three
    ways only: standard input ends ([EOFError]), the number of portions is
    infinite ([OverflowError]), or the number of portions was truncated to 0
    ([ZeroDivisionError]). *)
Theorem create_recipe_raises (self : RecipeManager) (w : World) (e : exn)
    (w' : World) :
  create_recipe float_of_str fmt2f json_dumps self w = (Raise e, w') ->
  e = EOFError \/ e = OverflowError \/ e = ZeroDivisionError.
Proof.
  unfold create_recipe. intros H.
  bind_cases H recipe0 w0 E0.
  - pose proof (new_recipe_effect _ _ _ _ E0) as [Hl _].
    bind_cases H rs w1 E1.
    + destruct rs as [recipe self1].
      unfold store_recipe, bind, lift, print, save_data, ret in H.
      unfold Recipe.cost_per_portion in H.
      destruct (Recipe.portions recipe =? 0); inversion H; subst. auto.
    + apply add_ingredients_effect in E1; [|lia].
      inversion H; subst. auto.
  - inversion H; subst. clear H. apply new_recipe_raises in E0.
    destruct E0 as [E0|E0]; auto.
Qed.

End Sessions.

Lemma completed_recipe_well_formed_witness :
  exists (self' : RecipeManager) (w' : World),
    create_recipe PyText.float_of_str PyText.fmt2f (Json.dumps PyText.repr)
      (mkManager [] []) (mkWorld ["Toast"; "2.9"; "Bread"; "80"; "0.004"; "n"] [] [])
    = (Ok (tt, self'), w')
    /\ exists (recipe : Recipe.t) (self1 : RecipeManager) (w1 : World),
         store_recipe PyText.fmt2f (Json.dumps PyText.repr) self1 recipe w1
         = (Ok (tt, self'), w')
         /\ Recipe.ingredients recipe <> []
         /\ 1 <= Recipe.portions recipe.
Proof.
  eexists. eexists. split.
  - vm_compute. reflexivity.
  - edestruct (completed_recipe_well_formed PyText.float_of_str PyText.fmt2f
                 (Json.dumps PyText.repr) (mkManager [] [])
                 (mkWorld ["Toast"; "2.9"; "Bread"; "80"; "0.004"; "n"] [] []))
      as [recipe0 [recipe [self1 [w0 [w1 [_ [_ [Hs [_ [Hne [_ Hp]]]]]]]]]]].
    + vm_compute. reflexivity.
    + exists recipe, self1, w1.
      split; [exact Hs|]. split; [exact Hne | exact Hp].
Defined.

Lemma create_recipe_raises_witness :
  OverflowError = EOFError \/ OverflowError = OverflowError
  \/ OverflowError = ZeroDivisionError.
Proof.
  apply (create_recipe_raises PyText.float_of_str PyText.fmt2f
           (Json.dumps PyText.repr) (mkManager [] [])
           (mkWorld ["Feast"; "inf"; "Bread"] [] []) OverflowError
           (mkWorld ["Bread"] ["Enter recipe name: "; "Enter number of portions: "]
              [])).
  reflexivity.
Defined.

(** ** One ingredient *)

Section OneIngredient.

Variable float_of_str : string -> option pyfloat.
Variable json_dumps : dict -> string.

(** X17: when no name of the store equals the name up to case but some
    contain it, [get_cost_per_gram] asks whether the first of them is meant,
    and on a yes it returns the cost stored for that one: no cost is asked
    for, the manager and the files stay as they were. *)
Theorem get_cost_per_gram_accepted (name : string) (self : RecipeManager)
    (w : World) (candidate : string) (others : list string) (answer : string)
    (rest : list string) :
  (forall key, In key (Dict.keys (ingredients_db self)) ->
               Str.lower key <> Str.lower name) ->
  suggestions_of name (Dict.keys (ingredients_db self)) = candidate :: others ->
  stdin w = answer :: rest ->
  accepts answer = true ->
  exists cost,
    Dict.get candidate (ingredients_db self) = Some cost
    /\ get_cost_per_gram float_of_str json_dumps name self w
       = (Ok (cost, self),
          mkWorld rest (stdout w ++ [confirm_prompt candidate name]) (files w)).
Proof.
  intros Hnone Hs Hw Hy.
  assert (Hf : suggest_name name (Dict.keys (ingredients_db self)) w
               = (Ok candidate,
                  mkWorld rest (stdout w ++ [confirm_prompt candidate name])
                    (files w))).
  { unfold suggest_name. rewrite (find_exact_match_none _ _ Hnone), Hs.
    unfold bind, input. rewrite Hw. unfold accepts in Hy. rewrite Hy.
    reflexivity. }
  assert (Hin : In candidate (Dict.keys (ingredients_db self))).
  { assert (Hc : In candidate (suggestions_of name (Dict.keys (ingredients_db self))))
      by (rewrite Hs; left; reflexivity).
    unfold suggestions_of in Hc. apply filter_In in Hc. apply Hc. }
  destruct (Dict.get candidate (ingredients_db self)) as [cost|] eqn:G.
  - exists cost. split; [reflexivity|].
    unfold get_cost_per_gram, bind. rewrite Hf, G. reflexivity.
  - exfalso. exact (dict_get_none_not_in _ _ G Hin).
Qed.

End OneIngredient.

Lemma get_cost_per_gram_accepted_witness :
  exists cost,
    Dict.get "Brown sugar" [("Salt", Fin (1 # 500)); ("Brown sugar", Fin (3 # 1000))]
    = Some cost
    /\ get_cost_per_gram PyText.float_of_str (Json.dumps PyText.repr) "sugar"
         (mkManager [("Salt", Fin (1 # 500)); ("Brown sugar", Fin (3 # 1000))] [])
         (mkWorld [" Y"; "n"] [] [])
       = (Ok (cost,
              mkManager [("Salt", Fin (1 # 500)); ("Brown sugar", Fin (3 # 1000))]
                []),
          mkWorld ["n"] ["Did you mean 'Brown sugar' instead of 'sugar'? (y/n): "]
            []).
Proof.
  apply (get_cost_per_gram_accepted PyText.float_of_str (Json.dumps PyText.repr)
           "sugar"
           (mkManager [("Salt", Fin (1 # 500)); ("Brown sugar", Fin (3 # 1000))] [])
           (mkWorld [" Y"; "n"] [] []) "Brown sugar" [] " Y" ["n"]).
  - intros key [<-|[<-|[]]]; discriminate.
  - reflexivity.
  - reflexivity.
  - reflexivity.
Defined.

(** ** The program as a whole *)

Lemma dict_set_keys_nodup (k : string) (v : pyfloat) (d : dict) :
  NoDup (Dict.keys d) -> NoDup (Dict.keys (Dict.set k v d)).
Proof.
  intros Hnd. destruct (in_dec string_dec k (Dict.keys d)) as [Hin|Hnot].
  - assert (E : Dict.keys (Dict.set k v d) = Dict.keys d).
    { clear Hnd. induction d as [|[k' v'] d IH]; simpl in *; [contradiction|].
      destruct (String.eqb_spec k k') as [->|Hne]; simpl; [reflexivity|].
      rewrite IH; [reflexivity|]. destruct Hin; [congruence | assumption]. }
    rewrite E. exact Hnd.
  - rewrite (dict_set_new _ _ _ Hnot). unfold Dict.keys in *.
    rewrite map_app. simpl. apply NoDup_snoc; assumption.
Qed.

Section WholeProgram.

Variable float_of_str : string -> option pyfloat.
Variable fmt2f : pyfloat -> string.
Variable json_dumps : dict -> string.
Variable json_loads : string -> option dict.

Lemma load_data_world (filename : string) (w : World) (r : result dict)
    (w' : World) :
  load_data json_loads filename w = (r, w') -> w' = w.
Proof.
  unfold load_data. destruct (FS.exists_ filename (files w)).
  - destruct (FS.read filename (files w)) as [content|].
    + destruct (json_loads content); intros H; inversion H; reflexivity.
    + intros H; inversion H; reflexivity.
  - intros H; inversion H; reflexivity.
Qed.

Lemma manager_init_world (w : World) (r : result RecipeManager) (w' : World) :
  manager_init json_loads w = (r, w') -> w' = w.
Proof.
  unfold manager_init. intros H.
  bind_cases H ing w1 E1; apply load_data_world in E1; subst;
    [| inversion H; reflexivity].
  bind_cases H rec w2 E2; apply load_data_world in E2; subst;
    inversion H; reflexivity.
Qed.

(** X18: the program writes files in one case only.  Unless the answer to
    its first question is [create] up to case, a run leaves every file as it
    was, however it ends. *)
Theorem main_writes_only_on_create (w : World) :
  (forall action rest, stdin w = action :: rest -> Str.lower action <> "create") ->
  files (snd (main float_of_str fmt2f json_dumps json_loads w)) = files w.
Proof.
  intros Hno.
  destruct (main float_of_str fmt2f json_dumps json_loads w) as [r w'] eqn:H.
  simpl. unfold main in H.
  bind_cases H manager w1 E1; apply manager_init_world in E1; subst w1;
    [| inversion H; reflexivity].
  bind_cases H action w2 E2; [| apply input_effect in E2; inversion H; subst; tauto].
  assert (Hact : Str.lower action <> "create").
  { unfold input in E2. destruct (stdin w) as [|a rest] eqn:Ew; [discriminate|].
    inversion E2; subst. apply (Hno action rest). reflexivity. }
  apply input_effect in E2. destruct E2 as [F2 _].
  destruct (String.eqb (Str.lower action) "view").
  - unfold bind in H. rewrite view_recipe_cost_effect in H.
    inversion H; subst. simpl. exact F2.
  - destruct (String.eqb_spec (Str.lower action) "create") as [E|_];
      [contradiction|].
    unfold print in H. inversion H; subst. simpl. exact F2.
Qed.

(** X19: a store file that exists and does not hold a store stops the
    program at once: [main] raises the parse failure before it asks or prints
    anything, and nothing is changed. *)
Theorem main_malformed_store (w : World) (file content : string) :
  file = INGREDIENTS_FILE \/ file = RECIPES_FILE ->
  FS.read file (files w) = Some content ->
  json_loads content = None ->
  main float_of_str fmt2f json_dumps json_loads w = (Raise JSONDecodeError, w).
Proof.
  intros Hfile Hread Hbad. unfold main, manager_init, bind.
  destruct (load_data json_loads INGREDIENTS_FILE w) as [[ing|e] w1] eqn:E1.
  - pose proof (load_data_world _ _ _ _ E1). subst w1.
    destruct Hfile as [->| ->].
    + unfold load_data, FS.exists_ in E1. rewrite Hread, Hbad in E1. discriminate.
    + unfold load_data at 1. unfold FS.exists_. rewrite Hread, Hbad. reflexivity.
  - pose proof (load_data_world _ _ _ _ E1). subst w1.
    unfold load_data in E1.
    destruct (FS.exists_ INGREDIENTS_FILE (files w)) eqn:Ex; [|discriminate].
    unfold FS.exists_ in Ex.
    destruct (FS.read INGREDIENTS_FILE (files w)) as [c|]; [|discriminate].
    destruct (json_loads c); inversion E1; subst. reflexivity.
Qed.

End WholeProgram.

Lemma main_writes_only_on_create_witness :
  files (snd (main PyText.float_of_str PyText.fmt2f (Json.dumps PyText.repr)
                (Json.loads PyText.float_of_str)
                (mkWorld ["View"] [] [("recipes.json", "{}")])))
  = [("recipes.json", "{}")].
Proof.
  apply (main_writes_only_on_create PyText.float_of_str PyText.fmt2f
           (Json.dumps PyText.repr) (Json.loads PyText.float_of_str)
           (mkWorld ["View"] [] [("recipes.json", "{}")])).
  intros action rest H. inversion H; subst. discriminate.
Defined.

Lemma main_malformed_store_witness :
  main PyText.float_of_str PyText.fmt2f (Json.dumps PyText.repr)
    (Json.loads PyText.float_of_str)
    (mkWorld ["create"] [] [("recipes.json", "{oops")])
  = (Raise JSONDecodeError, mkWorld ["create"] [] [("recipes.json", "{oops")]).
Proof.
  apply (main_malformed_store PyText.float_of_str PyText.fmt2f
           (Json.dumps PyText.repr) (Json.loads PyText.float_of_str)
           (mkWorld ["create"] [] [("recipes.json", "{oops")])
           "recipes.json" "{oops").
  - right. reflexivity.
  - reflexivity.
  - reflexivity.
Defined.

(** ** From one run to the next *)

Section Restart.

Variable float_of_str : string -> option pyfloat.
Variable fmt2f : pyfloat -> string.
Variable float_repr : pyfloat -> string.

Lemma load_mirrored (file : string) (store store' : dict) (w : World) :
  mirrors (Json.dumps float_repr) file store (files w) ->
  NoDup (Dict.keys store) ->
  store_reads_as float_repr float_of_str store store' ->
  load_data (Json.loads float_of_str) file w = (Ok store', w).
Proof.
  unfold mirrors, load_data, FS.exists_. intros Hm Hnd Hr.
  destruct (FS.read file (files w)) as [content|].
  - subst content. rewrite (loads_dumps_reads_as float_repr float_of_str store store' Hnd Hr).
    reflexivity.
  - subst store. inversion Hr. reflexivity.
Qed.

Lemma evolves_nodup (m m' : RecipeManager) (fs fs' : list (string * string)) :
  evolves (Json.dumps float_repr) m fs m' fs' ->
  NoDup (Dict.keys (ingredients_db m)) /\ NoDup (Dict.keys (recipes_db m)) ->
  NoDup (Dict.keys (ingredients_db m')) /\ NoDup (Dict.keys (recipes_db m')).
Proof.
  intros H Hnd. induction H as [m fs | m m' fs fs' name cost H IH Hnew Hpos
                                      | m m' fs fs' name cost H IH].
  - exact Hnd.
  - destruct (IH Hnd) as [Hi Hr]. simpl. split; [|exact Hr].
    unfold Dict.keys in *. rewrite map_app. simpl. apply NoDup_snoc; [exact Hi|].
    intros Hin. apply (Hnew name Hin). reflexivity.
  - destruct (IH Hnd) as [Hi Hr]. simpl. split; [exact Hi|].
    apply dict_set_keys_nodup. exact Hr.
Qed.

(** X20: what a run leaves is what the next run starts from.  When the
    store files mirror the stores of a manager, then after every sequence of
    operations a new manager, loaded from the files as they are then, has
    stores equal to those that the first one ended with: the same names in
    the same order with equal costs, provided each value is written as a
    number text that is read as a float equal to it. *)
Theorem restart_restores (os : list operation) (self : RecipeManager) (w : World)
    (self' : RecipeManager) (w' : World) (ing rec : dict) :
  run_operations float_of_str fmt2f (Json.dumps float_repr) os self w
  = (Ok self', w') ->
  mirrors (Json.dumps float_repr) INGREDIENTS_FILE (ingredients_db self) (files w)
  /\ mirrors (Json.dumps float_repr) RECIPES_FILE (recipes_db self) (files w) ->
  NoDup (Dict.keys (ingredients_db self)) /\ NoDup (Dict.keys (recipes_db self)) ->
  store_reads_as float_repr float_of_str (ingredients_db self') ing ->
  store_reads_as float_repr float_of_str (recipes_db self') rec ->
  manager_init (Json.loads float_of_str) w' = (Ok (mkManager ing rec), w')
  /\ Dict.keys ing = Dict.keys (ingredients_db self')
  /\ Dict.eqb ing (ingredients_db self') = true
  /\ Dict.keys rec = Dict.keys (recipes_db self')
  /\ Dict.eqb rec (recipes_db self') = true.
Proof.
  intros H Hm Hnd Hri Hrr.
  apply run_operations_trace in H. destruct H as [s1 [Hev Hs]].
  rewrite <- (Hs _ eq_refl) in Hev.
  destruct (evolves_mirrors _ _ _ _ _ Hev Hm) as [Hmi Hmr].
  destruct (evolves_nodup _ _ _ _ Hev Hnd) as [Hni Hnr].
  split; [|repeat split].
  - unfold manager_init, bind.
    rewrite (load_mirrored _ _ _ _ Hmi Hni Hri).
    rewrite (load_mirrored _ _ _ _ Hmr Hnr Hrr). reflexivity.
  - apply (store_reads_as_keys float_repr float_of_str). exact Hri.
  - apply (store_reads_as_eqb float_repr float_of_str); assumption.
  - apply (store_reads_as_keys float_repr float_of_str). exact Hrr.
  - apply (store_reads_as_eqb float_repr float_of_str); assumption.
Qed.

End Restart.

Lemma restart_restores_witness :
  exists (self' : RecipeManager) (w' : World),
    run_operations PyText.float_of_str PyText.fmt2f (Json.dumps PyText.repr)
      [CreateRecipe] (mkManager [] [])
      (mkWorld ["Toast"; "2"; "Bread"; "80"; "0.004"; "n"] [] [])
    = (Ok self', w')
    /\ manager_init (Json.loads PyText.float_of_str) w'
       = (Ok (mkManager [("Bread", Fin (1 # 250))] [("Toast", Fin (4 # 25))]), w')
    /\ Dict.eqb [("Toast", Fin (4 # 25))] (recipes_db self') = true.
Proof.
  eexists. eexists. split.
  - vm_compute. reflexivity.
  - pose proof
      (fun s' w'' =>
         restart_restores PyText.float_of_str PyText.fmt2f PyText.repr
           [CreateRecipe] (mkManager [] [])
           (mkWorld ["Toast"; "2"; "Bread"; "80"; "0.004"; "n"] [] [])
           s' w'' [("Bread", Fin (1 # 250))] [("Toast", Fin (4 # 25))]) as R.
    edestruct R as [Hinit [_ [_ [_ Heq]]]].
    + vm_compute. reflexivity.
    + split; reflexivity.
    + split; constructor.
    + cbn [ingredients_db].
      constructor; [|constructor].
      split; [reflexivity|]. split; [split|]; vm_compute; reflexivity.
    + cbn [recipes_db].
      constructor; [|constructor].
      split; [reflexivity|]. split; [split|]; vm_compute; reflexivity.
    + split; [exact Hinit | exact Heq].
Defined.

(** ** A session that fails *)

Section FailedSession.

Variable float_of_str : string -> option pyfloat.
Variable fmt2f : pyfloat -> string.
Variable json_dumps : dict -> string.





End FailedSession.

